(** * PixelShelf: follow button and dashboard feed

    A shallow embedding of two client components of PixelShelf,

    - [FollowButton]   (src/components/feature-specific/follow-button.tsx)
    - [DashboardFeed]  (the multi-tab feed component),

    together with the properties of them that the specification states.

    React components are embedded as explicit state machines: the values
    kept by [useState] are the fields of a record, a [useEffect] is a function
    run when one of its dependencies changed, an event handler is a state
    transformer, and calls into collaborators (toasts, router, mutations,
    query hooks, callbacks received as props) are recorded in a log in the
    order in which the handler performs them.  An [await] is a suspension
    point: what follows it is a continuation that runs when the awaited
    promise settles. *)

From Stdlib Require Import String List Bool ZArith Arith Lia.
From Stdlib Require Import Ascii DecimalString.
Import ListNotations.
Open Scope string_scope.

(** ** JavaScript values shared by both components *)

(** [string | undefined], [T | null]: the absent value is [None]. *)
Definition undefined {A : Type} : option A := None.

(** A value caught by [catch (error)]: either an [Error] object with its
    [message], or anything else. *)
Inductive Thrown : Type :=
| ErrorObject (message : string)
| NotAnError.

(** The way an awaited promise settles. *)
Inductive Settled : Type :=
| Resolved
| Rejected (error : Thrown).

(** The session supplied by [useSession]: [session?.user?.id]. *)
Record User : Type := { id : string }.
Record Session : Type := { user : option User }.

(** * FollowButton *)

Module FollowButton.

(** The props the logic reads.  [isFollowing] is destructured under the
    name [initialIsFollowing]; [onFollowChange] is optional. *)
Record Props : Type := {
  userId : string;
  initialIsFollowing : bool;
  onFollowChange : bool;          (* is the callback provided? *)
  variant : string;
  showIcon : bool;
  showText : bool
}.

(** Calls into collaborators, in the order the component makes them. *)
Inductive Effect : Type :=
| toast_error (message : string)
| router_push (path : string)
| onFollowChange_call (value : bool)
| follow_mutateAsync (uid : string)
| unfollow_mutateAsync (uid : string)
| console_error (error : Thrown).

Inductive Mutation : Type := Follow | Unfollow.

(** What the suspended [handleFollow] still refers to after its [await]:
    the bindings of the render in which the handler was created. *)
Record Closure : Type := {
  k_mutation : Mutation;
  k_initialIsFollowing : bool;
  k_onFollowChange : bool
}.

(** One mounted instance of the component. *)
Record Instance : Type := {
  props : Props;
  session : option Session;                (* useSession().data *)
  isFollowing : bool;                      (* useState(initialIsFollowing) *)
  inflight : option Closure;               (* handleFollow suspended at await *)
  effects : list Effect                    (* oldest first *)
}.

Definition setIsFollowing (v : bool) (c : Instance) : Instance :=
  {| props := props c; session := session c; isFollowing := v;
     inflight := inflight c; effects := effects c |}.

Definition emit (e : Effect) (c : Instance) : Instance :=
  {| props := props c; session := session c; isFollowing := isFollowing c;
     inflight := inflight c; effects := effects c ++ [e] |}.

Definition suspend (k : Closure) (c : Instance) : Instance :=
  {| props := props c; session := session c; isFollowing := isFollowing c;
     inflight := Some k; effects := effects c |}.

Definition resume (c : Instance) : Instance :=
  {| props := props c; session := session c; isFollowing := isFollowing c;
     inflight := None; effects := effects c |}.

Definition setProps (p : Props) (c : Instance) : Instance :=
  {| props := p; session := session c; isFollowing := isFollowing c;
     inflight := inflight c; effects := effects c |}.

(** Statements in sequence. *)
Definition seq (f g : Instance -> Instance) : Instance -> Instance :=
  fun c => g (f c).
Notation "f ;; g" := (seq f g) (at level 61, right associativity).
Definition skip : Instance -> Instance := fun c => c.

(** [if (onFollowChange) onFollowChange(v)], with the [onFollowChange]
    of the given render.  The callback belongs to the parent; it is taken
    to return normally. *)
Definition call_onFollowChange (provided : bool) (v : bool)
  : Instance -> Instance :=
  if provided then emit (onFollowChange_call v) else skip.

(** [followMutation.isPending] and [unfollowMutation.isPending]: a mutation
    is pending from [mutateAsync] until its promise settles. *)
Definition followMutation_isPending (c : Instance) : bool :=
  match inflight c with
  | Some k => match k_mutation k with Follow => true | Unfollow => false end
  | None => false
  end.

Definition unfollowMutation_isPending (c : Instance) : bool :=
  match inflight c with
  | Some k => match k_mutation k with Unfollow => true | Follow => false end
  | None => false
  end.

Definition isLoading (c : Instance) : bool :=
  followMutation_isPending c || unfollowMutation_isPending c.

(** [useState(initialIsFollowing)] at mount. *)
Definition mount (p : Props) (s : option Session) : Instance :=
  {| props := p; session := s; isFollowing := initialIsFollowing p;
     inflight := None; effects := [] |}.

(** [useEffect(() => { setIsFollowing(initialIsFollowing) },
    [initialIsFollowing])]: the body, run after a render in which the
    dependency differs from the previous render's. *)
Definition syncFromProps (c : Instance) : Instance :=
  setIsFollowing (initialIsFollowing (props c)) c.

(** The parent renders the component again with props [p]. *)
Definition receiveProps (p : Props) (c : Instance) : Instance :=
  let changed :=
    negb (Bool.eqb (initialIsFollowing p) (initialIsFollowing (props c))) in
  let c' := setProps p c in
  if changed then syncFromProps c' else c'.

(** [handleFollow], up to and including the call of [mutateAsync]. *)
Definition handleFollow (c : Instance) : Instance :=
  match session c with
  | None =>
      (emit (toast_error "Please sign in to follow users") ;;
       emit (router_push "/login")) c
  | Some _ =>
      let p := props c in
      if isFollowing c then
        (setIsFollowing false ;;
         call_onFollowChange (onFollowChange p) false ;;
         emit (unfollow_mutateAsync (userId p)) ;;
         suspend {| k_mutation := Unfollow;
                    k_initialIsFollowing := initialIsFollowing p;
                    k_onFollowChange := onFollowChange p |}) c
      else
        (setIsFollowing true ;;
         call_onFollowChange (onFollowChange p) true ;;
         emit (follow_mutateAsync (userId p)) ;;
         suspend {| k_mutation := Follow;
                    k_initialIsFollowing := initialIsFollowing p;
                    k_onFollowChange := onFollowChange p |}) c
  end.

(** The [catch (error)] block of [handleFollow]. *)
Definition handleFollow_catch (k : Closure) (error : Thrown)
  : Instance -> Instance :=
  emit (console_error error) ;;
  setIsFollowing (k_initialIsFollowing k) ;;
  call_onFollowChange (k_onFollowChange k) (k_initialIsFollowing k) ;;
  emit (toast_error
          match error with
          | ErrorObject message => message
          | NotAnError => "An error occurred"
          end).

(** The awaited mutation settles and [handleFollow] runs on. *)
Definition settle (r : Settled) (c : Instance) : Instance :=
  match inflight c with
  | None => c
  | Some k =>
      match r with
      | Resolved => resume c
      | Rejected error => handleFollow_catch k error (resume c)
      end
  end.

(** [session?.user?.id === userId] *)
Definition isCurrentUser (c : Instance) : bool :=
  match session c with
  | Some s =>
      match user s with
      | Some u => String.eqb (id u) (userId (props c))
      | None => false
      end
  | None => false
  end.

(** The rendered [<Button>].  [render] is the button of a parent that
    passes no [disabled] of its own; [renderWith] below has the general
    case. *)
Inductive Icon : Type := Loader2 | UserCheckIcon | UserPlus.

Record Button : Type := {
  b_variant : string;
  b_disabled : bool;
  b_icon : option Icon;
  b_text : option string
}.

Definition render (c : Instance) : option Button :=
  if isCurrentUser c then None
  else
    Some {| b_variant := if isFollowing c then "outline"
                         else variant (props c);
            b_disabled := isLoading c;
            b_icon :=
              if isLoading c then Some Loader2
              else if showIcon (props c)
                   then Some (if isFollowing c then UserCheckIcon
                              else UserPlus)
                   else None;
            b_text :=
              if isLoading c then None
              else if showText (props c)
                   then Some (if isFollowing c then "Following"
                              else "Follow")
                   else None |}.

(** A click on what is rendered: [onClick={handleFollow}] of a button that
    is there and not disabled. *)
Definition click (c : Instance) : Instance :=
  match render c with
  | None => c
  | Some b => if b_disabled b then c else handleFollow c
  end.

(** What can happen to a mounted instance. *)
Inductive Input : Type :=
| Click
| Settle (r : Settled)
| NewProps (p : Props)
| NewSession (s : option Session).

Definition setSession (s : option Session) (c : Instance) : Instance :=
  {| props := props c; session := s; isFollowing := isFollowing c;
     inflight := inflight c; effects := effects c |}.

Definition step (c : Instance) (i : Input) : Instance :=
  match i with
  | Click => click c
  | Settle r => settle r c
  | NewProps p => receiveProps p c
  | NewSession s => setSession s c
  end.

Definition run (c : Instance) (inputs : list Input) : Instance :=
  fold_left step inputs c.

(** The mutation calls among the effects. *)
Definition is_mutation (e : Effect) : bool :=
  match e with
  | follow_mutateAsync _ | unfollow_mutateAsync _ => true
  | _ => false
  end.

Definition mutation_calls (c : Instance) : nat :=
  length (filter is_mutation (effects c)).

(** The effects performed between [c] and a later [c']. *)
Definition new_effects (c c' : Instance) : list Effect :=
  skipn (length (effects c)) (effects c').

(** The inputs that settle a mutation. *)
Definition is_settle (i : Input) : bool :=
  match i with Settle _ => true | _ => false end.

Definition settles (inputs : list Input) : nat :=
  length (filter is_settle inputs).

(** The value last passed to [onFollowChange], if it was ever called. *)
Definition reported (e : Effect) : option bool :=
  match e with onFollowChange_call v => Some v | _ => None end.

Definition last_reported (c : Instance) : option bool :=
  fold_left
    (fun acc e => match reported e with Some v => Some v | None => acc end)
    (effects c) None.

(** ** The further props *)

(** The props the component does not name go on to [<Button>] by
    [{...props}], which stands after [disabled={isLoading}]: a [disabled]
    among them takes the place of [isLoading].  [None] is a parent that
    passes no [disabled], [Some d] one that passes a truthy ([true]) or a
    falsy one ([false], or an [undefined] written out; the button treats
    both alike).  Of the other things a [<Button>] takes, [onClick] is not
    among the props of the component, and the children given here take the
    place of any passed.  Icon and text follow [isLoading] all the same. *)
Definition renderWith (disabled : option bool) (c : Instance)
  : option Button :=
  if isCurrentUser c then None
  else
    Some {| b_variant := if isFollowing c then "outline"
                         else variant (props c);
            b_disabled := match disabled with
                          | Some d => d
                          | None => isLoading c
                          end;
            b_icon :=
              if isLoading c then Some Loader2
              else if showIcon (props c)
                   then Some (if isFollowing c then UserCheckIcon
                              else UserPlus)
                   else None;
            b_text :=
              if isLoading c then None
              else if showText (props c)
                   then Some (if isFollowing c then "Following"
                              else "Follow")
                   else None |}.

(** A click on what [renderWith] shows.  An instance holds the
    continuation of one mutation; a click that starts a second mutation while
    one is in flight (possible only under [disabled={false}]) leads out of
    what an instance can hold, and has no result here. *)
Definition clickWith (disabled : option bool) (c : Instance)
  : option Instance :=
  match renderWith disabled c with
  | None => Some c
  | Some b =>
      if b_disabled b then Some c
      else match inflight c with
           | None => Some (handleFollow c)
           | Some _ => None
           end
  end.

(** A mounted button together with the [disabled] its parent passes. *)
Record Mounted : Type := {
  passed_disabled : option bool;
  instance : Instance
}.

Inductive Event : Type :=
| Does (i : Input)
| PassesDisabled (disabled : option bool).

Definition stepWith (m : Mounted) (e : Event) : option Mounted :=
  match e with
  | PassesDisabled d => Some {| passed_disabled := d; instance := instance m |}
  | Does Click =>
      match clickWith (passed_disabled m) (instance m) with
      | Some c => Some {| passed_disabled := passed_disabled m;
                          instance := c |}
      | None => None
      end
  | Does i => Some {| passed_disabled := passed_disabled m;
                      instance := step (instance m) i |}
  end.

Fixpoint runWith (m : Mounted) (events : list Event) : option Mounted :=
  match events with
  | [] => Some m
  | e :: rest =>
      match stepWith m e with
      | Some m' => runWith m' rest
      | None => None
      end
  end.

(** The parent does not switch the guard off: it passes no falsy
    [disabled]. *)
Definition keeps_guard (disabled : option bool) : bool :=
  match disabled with
  | Some false => false
  | _ => true
  end.

Definition guard_kept (events : list Event) : bool :=
  forallb (fun e => match e with
                    | PassesDisabled d => keeps_guard d
                    | Does _ => true
                    end) events.

(** The events that settle a mutation. *)
Definition settled_events (events : list Event) : nat :=
  length (filter (fun e => match e with
                           | Does (Settle _) => true
                           | _ => false
                           end) events).

(** Mutation calls made so far, plus one while nothing is in flight. *)
Definition budget (c : Instance) : nat :=
  mutation_calls c + match inflight c with Some _ => 0 | None => 1 end.

(** What a click of a signed-in viewer does before the mutation settles:
    the optional report to the parent, then the mutation call. *)
Definition optimistic_effects (c : Instance) : list Effect :=
  ((if onFollowChange (props c)
    then [onFollowChange_call (negb (isFollowing c))] else [])
   ++ [if isFollowing c then unfollow_mutateAsync (userId (props c))
       else follow_mutateAsync (userId (props c))])%list.

End FollowButton.

(** * DashboardFeed *)

Module DashboardFeed.

Inductive ViewMode : Type := grid | list_view.      (* 'grid' | 'list' *)

Definition is_grid (m : ViewMode) : bool :=
  match m with grid => true | list_view => false end.
Definition is_list (m : ViewMode) : bool :=
  match m with list_view => true | grid => false end.

Inductive FeedSource : Type := trending | following | assets | creators.

(** The tab id under which a source is shown. *)
Definition tab_id (s : FeedSource) : string :=
  match s with
  | trending => "trending"
  | following => "following"
  | assets => "assets"
  | creators => "creators"
  end.

(** An [Asset] or a [UserProfile]; the feed logic looks at its [id] only. *)
Record Item : Type := { item_id : string }.

(** A page of an infinite query: [page.assets] of a page of assets,
    [page.users] of a page of creators. *)
Record Page : Type := { page_items : list Item }.

(** The props the logic reads, with their defaults applied. *)
Record Props : Type := {
  initialTab : string;                   (* = 'trending' *)
  searchQuery : string;                  (* = '' *)
  selectedTags : list string;            (* = [] *)
  selectedType : option string;          (* = null *)
  infiniteScroll : bool;                 (* = true *)
  itemsPerRow : Z;                       (* = 4 *)
  showSidecards : bool;                  (* = false *)
  defaultViewMode : ViewMode;            (* = 'grid' *)
  onViewModeChange : bool                (* is the callback provided? *)
}.

(** ** The query hooks *)

(** What [useInfiniteAssetsQuery] and [useInfiniteCreatorsQuery] return.
    The two counters are not visible to the component: they count the next-page
    requests issued for the source and the responses that came back so
    far. *)
Record InfiniteQuery : Type := {
  pages : option (list Page);            (* data?.pages *)
  iq_isLoading : bool;
  iq_error : option Thrown;
  hasNextPage : bool;
  isFetchingNextPage : bool;
  requested : nat;
  settled : nat
}.

(** What [useAssetsQuery] and [useCreatorsQuery] return. *)
Record PagedQuery : Type := {
  items : list Item;                     (* assets, creators *)
  pq_isLoading : bool;
  pq_error : option Thrown;
  pq_hasMore : bool;
  pq_isLoadingMore : bool
}.

Inductive Sort : Type := popular | latest.

(** The options object passed to a query hook; a field the call does not
    pass is [undefined]. *)
Record QueryOptions : Type := {
  sort : Sort;
  limit : option nat;
  search : option string;
  tag : option string;
  type : option string;
  following_only : option bool;          (* following: true *)
  enabled : bool
}.

(** Functions received from hooks and props, as the component names them. *)
Inductive Call : Type :=
| fetchNextTrendingPage | fetchNextFollowingPage
| fetchNextAssetsPage | fetchNextCreatorsPage
| reloadTrendingInfinite | reloadFollowingInfinite
| reloadAssetsInfinite | reloadCreatorsInfinite
| reloadTrending | reloadFollowing | reloadAssets | reloadCreators
| loadMoreTrending | loadMoreFollowing | loadMoreAssets | loadMoreCreators
| onViewModeChange_call (mode : ViewMode).

(** One mounted feed. *)
Record Instance : Type := {
  props : Props;
  session : option Session;
  (* useState *)
  activeTab : string;
  isRefreshing : bool;
  viewMode : ViewMode;
  currentItemsPerRow : Z;
  showCurrentSidecards : bool;
  (* hook results *)
  infinite : FeedSource -> InfiniteQuery;
  paged : FeedSource -> PagedQuery;
  (* collaborators *)
  calls : list Call;                     (* oldest first *)
  now : nat;                             (* milliseconds *)
  timers : list nat                      (* due times of pending setTimeout
                                            callbacks; the only callback the
                                            component schedules is
                                            [() => setIsRefreshing(false)] *)
}.

Definition setActiveTab (v : string) (w : Instance) : Instance :=
  {| props := props w; session := session w; activeTab := v;
     isRefreshing := isRefreshing w; viewMode := viewMode w;
     currentItemsPerRow := currentItemsPerRow w;
     showCurrentSidecards := showCurrentSidecards w;
     infinite := infinite w; paged := paged w; calls := calls w;
     now := now w; timers := timers w |}.

Definition setIsRefreshing (v : bool) (w : Instance) : Instance :=
  {| props := props w; session := session w; activeTab := activeTab w;
     isRefreshing := v; viewMode := viewMode w;
     currentItemsPerRow := currentItemsPerRow w;
     showCurrentSidecards := showCurrentSidecards w;
     infinite := infinite w; paged := paged w; calls := calls w;
     now := now w; timers := timers w |}.

Definition setViewMode (v : ViewMode) (w : Instance) : Instance :=
  {| props := props w; session := session w; activeTab := activeTab w;
     isRefreshing := isRefreshing w; viewMode := v;
     currentItemsPerRow := currentItemsPerRow w;
     showCurrentSidecards := showCurrentSidecards w;
     infinite := infinite w; paged := paged w; calls := calls w;
     now := now w; timers := timers w |}.

Definition setCurrentItemsPerRow (v : Z) (w : Instance) : Instance :=
  {| props := props w; session := session w; activeTab := activeTab w;
     isRefreshing := isRefreshing w; viewMode := viewMode w;
     currentItemsPerRow := v;
     showCurrentSidecards := showCurrentSidecards w;
     infinite := infinite w; paged := paged w; calls := calls w;
     now := now w; timers := timers w |}.

Definition setShowCurrentSidecards (v : bool) (w : Instance) : Instance :=
  {| props := props w; session := session w; activeTab := activeTab w;
     isRefreshing := isRefreshing w; viewMode := viewMode w;
     currentItemsPerRow := currentItemsPerRow w;
     showCurrentSidecards := v;
     infinite := infinite w; paged := paged w; calls := calls w;
     now := now w; timers := timers w |}.

Definition setInfinite (v : FeedSource -> InfiniteQuery) (w : Instance)
  : Instance :=
  {| props := props w; session := session w; activeTab := activeTab w;
     isRefreshing := isRefreshing w; viewMode := viewMode w;
     currentItemsPerRow := currentItemsPerRow w;
     showCurrentSidecards := showCurrentSidecards w;
     infinite := v; paged := paged w; calls := calls w;
     now := now w; timers := timers w |}.

Definition setProps (v : Props) (w : Instance) : Instance :=
  {| props := v; session := session w; activeTab := activeTab w;
     isRefreshing := isRefreshing w; viewMode := viewMode w;
     currentItemsPerRow := currentItemsPerRow w;
     showCurrentSidecards := showCurrentSidecards w;
     infinite := infinite w; paged := paged w; calls := calls w;
     now := now w; timers := timers w |}.

Definition setClock (t : nat) (pending : list nat) (w : Instance) : Instance :=
  {| props := props w; session := session w; activeTab := activeTab w;
     isRefreshing := isRefreshing w; viewMode := viewMode w;
     currentItemsPerRow := currentItemsPerRow w;
     showCurrentSidecards := showCurrentSidecards w;
     infinite := infinite w; paged := paged w; calls := calls w;
     now := t; timers := pending |}.

Definition emit (f : Call) (w : Instance) : Instance :=
  {| props := props w; session := session w; activeTab := activeTab w;
     isRefreshing := isRefreshing w; viewMode := viewMode w;
     currentItemsPerRow := currentItemsPerRow w;
     showCurrentSidecards := showCurrentSidecards w;
     infinite := infinite w; paged := paged w; calls := calls w ++ [f];
     now := now w; timers := timers w |}.

(** Statements in sequence. *)
Definition seq (f g : Instance -> Instance) : Instance -> Instance :=
  fun w => g (f w).
Notation "f ;; g" := (seq f g) (at level 61, right associativity).
Definition skip : Instance -> Instance := fun w => w.

(** [a === b] on strings. *)
Notation "a === b" := (String.eqb a b) (at level 70, no associativity).

(** ** View state *)

(** The [useState] initial values. *)
Definition initial (p : Props) (s : option Session)
    (inf : FeedSource -> InfiniteQuery) (pg : FeedSource -> PagedQuery)
  : Instance :=
  {| props := p; session := s; activeTab := initialTab p;
     isRefreshing := false; viewMode := defaultViewMode p;
     currentItemsPerRow := itemsPerRow p;
     showCurrentSidecards := showSidecards p;
     infinite := inf; paged := pg; calls := []; now := 0; timers := [] |}.

(** [useEffect(..., [defaultViewMode, itemsPerRow, showSidecards])]: the
    body. *)
Definition initViewMode (w : Instance) : Instance :=
  let p := props w in
  (setViewMode (defaultViewMode p) ;;
   if is_list (defaultViewMode p) && showSidecards p then
     setCurrentItemsPerRow 1 ;; setShowCurrentSidecards true
   else if is_grid (defaultViewMode p) && negb (showSidecards p) then
     setCurrentItemsPerRow (itemsPerRow p) ;; setShowCurrentSidecards false
   else skip) w.

Definition mount (p : Props) (s : option Session)
    (inf : FeedSource -> InfiniteQuery) (pg : FeedSource -> PagedQuery)
  : Instance :=
  initViewMode (initial p s inf pg).

Definition handleTabChange (tab : string) : Instance -> Instance :=
  setActiveTab tab.

Definition handleViewModeChange (mode : ViewMode) (w : Instance) : Instance :=
  let p := props w in
  (setViewMode mode ;;
   (if showSidecards p then
      if is_list mode then
        setCurrentItemsPerRow 1 ;; setShowCurrentSidecards true
      else
        setCurrentItemsPerRow 4 ;; setShowCurrentSidecards false
    else skip) ;;
   (if onViewModeChange p then emit (onViewModeChange_call mode)
    else skip)) w.

(** ** Query options *)

Section Queries.

(** [PAGINATION.DEFAULT_LIMIT] of '@/constants'. *)
Variable DEFAULT_LIMIT : nat.

(** [selectedType || undefined]: [null] and the empty string are falsy. *)
Definition orUndefined (v : option string) : option string :=
  match v with
  | Some s => if s === "" then undefined else Some s
  | None => undefined
  end.

(** [!!session] *)
Definition signedIn (w : Instance) : bool :=
  match session w with Some _ => true | None => false end.

(** The options of the four [useInfinite...Query] calls. *)
Definition infiniteOptions (s : FeedSource) (w : Instance) : QueryOptions :=
  let p := props w in
  match s with
  | trending =>
      {| sort := popular;
         limit := Some DEFAULT_LIMIT;
         search := if activeTab w === "trending" then Some (searchQuery p)
                   else undefined;
         tag := if (activeTab w === "trending")
                   && (0 <? length (selectedTags p))%nat
                then nth_error (selectedTags p) 0 else undefined;
         type := if activeTab w === "trending"
                 then orUndefined (selectedType p) else undefined;
         following_only := undefined;
         enabled := (activeTab w === "trending") && infiniteScroll p |}
  | following =>
      {| sort := latest;
         limit := Some DEFAULT_LIMIT;
         search := if activeTab w === "following" then Some (searchQuery p)
                   else undefined;
         tag := if (activeTab w === "following")
                   && (0 <? length (selectedTags p))%nat
                then nth_error (selectedTags p) 0 else undefined;
         type := if activeTab w === "following"
                 then orUndefined (selectedType p) else undefined;
         following_only := Some true;
         enabled := (activeTab w === "following") && signedIn w
                    && infiniteScroll p |}
  | assets =>
      {| sort := latest;
         limit := Some DEFAULT_LIMIT;
         search := if activeTab w === "assets" then Some (searchQuery p)
                   else undefined;
         tag := if (activeTab w === "assets")
                   && (0 <? length (selectedTags p))%nat
                then nth_error (selectedTags p) 0 else undefined;
         type := if activeTab w === "assets"
                 then orUndefined (selectedType p) else undefined;
         following_only := undefined;
         enabled := (activeTab w === "assets") && infiniteScroll p |}
  | creators =>
      {| sort := popular;
         limit := undefined;
         search := if activeTab w === "creators" then Some (searchQuery p)
                   else undefined;
         tag := if (activeTab w === "creators")
                   && (0 <? length (selectedTags p))%nat
                then nth_error (selectedTags p) 0 else undefined;
         type := undefined;
         following_only := undefined;
         enabled := (activeTab w === "creators") && infiniteScroll p |}
  end.

(** The options of the four paged [use...Query] calls. *)
Definition pagedOptions (s : FeedSource) (w : Instance) : QueryOptions :=
  let p := props w in
  match s with
  | trending =>
      {| sort := popular;
         limit := Some DEFAULT_LIMIT;
         search := if activeTab w === "trending" then Some (searchQuery p)
                   else undefined;
         tag := if (activeTab w === "trending")
                   && (0 <? length (selectedTags p))%nat
                then nth_error (selectedTags p) 0 else undefined;
         type := if activeTab w === "trending"
                 then orUndefined (selectedType p) else undefined;
         following_only := undefined;
         enabled := (activeTab w === "trending") && negb (infiniteScroll p) |}
  | following =>
      {| sort := latest;
         limit := Some DEFAULT_LIMIT;
         search := if activeTab w === "following" then Some (searchQuery p)
                   else undefined;
         tag := if (activeTab w === "following")
                   && (0 <? length (selectedTags p))%nat
                then nth_error (selectedTags p) 0 else undefined;
         type := if activeTab w === "following"
                 then orUndefined (selectedType p) else undefined;
         following_only := Some true;
         enabled := (activeTab w === "following") && signedIn w
                    && negb (infiniteScroll p) |}
  | assets =>
      {| sort := latest;
         limit := Some DEFAULT_LIMIT;
         search := if activeTab w === "assets" then Some (searchQuery p)
                   else undefined;
         tag := if (activeTab w === "assets")
                   && (0 <? length (selectedTags p))%nat
                then nth_error (selectedTags p) 0 else undefined;
         type := if activeTab w === "assets"
                 then orUndefined (selectedType p) else undefined;
         following_only := undefined;
         enabled := (activeTab w === "assets") && negb (infiniteScroll p) |}
  | creators =>
      {| sort := popular;
         limit := undefined;
         search := if activeTab w === "creators" then Some (searchQuery p)
                   else undefined;
         tag := if (activeTab w === "creators")
                   && (0 <? length (selectedTags p))%nat
                then nth_error (selectedTags p) 0 else undefined;
         type := undefined;
         following_only := undefined;
         enabled := (activeTab w === "creators") && negb (infiniteScroll p) |}
  end.

End Queries.

(** ** Flattened pages *)

(** [pages.flatMap(f)] *)
Definition flatMap {A B : Type} (f : A -> list B) (l : list A) : list B :=
  List.flat_map f l.

(** [trendingInfiniteAssets], [followingInfiniteAssets],
    [assetsInfiniteAssets], [creatorsInfiniteItems]:
    [data ? data.pages.flatMap(page => page.assets) : []]. *)
Definition infiniteItems (s : FeedSource) (w : Instance) : list Item :=
  match pages (infinite w s) with
  | Some ps => flatMap (fun page => page_items page) ps
  | None => []
  end.

(** ** The active tab's data *)

(** The object [getTabData] returns. *)
Record TabData : Type := {
  data : list Item;
  isLoading : bool;
  error : option Thrown;
  hasMore : bool;
  isLoadingMore : bool;
  loadMore : Call;
  type_flag : option string              (* type: 'creator' *)
}.

Definition fetchNext (s : FeedSource) : Call :=
  match s with
  | trending => fetchNextTrendingPage
  | following => fetchNextFollowingPage
  | assets => fetchNextAssetsPage
  | creators => fetchNextCreatorsPage
  end.

Definition loadMoreOf (s : FeedSource) : Call :=
  match s with
  | trending => loadMoreTrending
  | following => loadMoreFollowing
  | assets => loadMoreAssets
  | creators => loadMoreCreators
  end.

Definition infiniteTabData (s : FeedSource) (w : Instance) : TabData :=
  {| data := infiniteItems s w;
     isLoading := iq_isLoading (infinite w s);
     error := iq_error (infinite w s);
     hasMore := hasNextPage (infinite w s);
     isLoadingMore := isFetchingNextPage (infinite w s);
     loadMore := fetchNext s;
     type_flag := match s with creators => Some "creator" | _ => undefined end
  |}.

Definition pagedTabData (s : FeedSource) (w : Instance) : TabData :=
  {| data := items (paged w s);
     isLoading := pq_isLoading (paged w s);
     error := pq_error (paged w s);
     hasMore := pq_hasMore (paged w s);
     isLoadingMore := pq_isLoadingMore (paged w s);
     loadMore := loadMoreOf s;
     type_flag := match s with creators => Some "creator" | _ => undefined end
  |}.

Definition getTabData (w : Instance) : TabData :=
  if infiniteScroll (props w) then
    if activeTab w === "trending" then infiniteTabData trending w
    else if activeTab w === "following" then infiniteTabData following w
    else if activeTab w === "assets" then infiniteTabData assets w
    else if activeTab w === "creators" then infiniteTabData creators w
    else infiniteTabData trending w
  else
    if activeTab w === "trending" then pagedTabData trending w
    else if activeTab w === "following" then pagedTabData following w
    else if activeTab w === "assets" then pagedTabData assets w
    else if activeTab w === "creators" then pagedTabData creators w
    else pagedTabData trending w.

(** ** Statements that may throw, and [switch] *)

Inductive Outcome (A : Type) : Type :=
| Returns (a : A)
| Throws (e : Thrown).
Arguments Returns {A} a.
Arguments Throws {A} e.

Definition M (A : Type) : Type := Instance -> Outcome A * Instance.

Definition ret {A : Type} (a : A) : M A := fun w => (Returns a, w).

Definition bind {A B : Type} (c : M A) (k : A -> M B) : M B :=
  fun w =>
    match c w with
    | (Returns a, w') => k a w'
    | (Throws e, w') => (Throws e, w')
    end.

Notation "c >>= k" := (bind c k) (at level 62, left associativity).
Notation "c >> d" := (bind c (fun _ => d)) (at level 62, left associativity).

(** A statement that cannot throw. *)
Definition stmt (f : Instance -> Instance) : M unit :=
  fun w => (Returns tt, f w).

(** [try { body } finally { handler }], for a handler that does not throw. *)
Definition try_finally {A : Type} (body : M A) (handler : Instance -> Instance)
  : M A :=
  fun w => let (r, w') := body w in (r, handler w').

(** How the statement list of a [case] clause ends. *)
Inductive Flow : Type := Break | FallThrough.

Inductive Label : Type := case (v : string) | default.

Definition Clause : Type := (Label * M Flow)%type.

(** Run clauses in order until one ends with [break]. *)
Fixpoint run_clauses (cs : list Clause) : M unit :=
  match cs with
  | [] => ret tt
  | (_, body) :: rest =>
      body >>= fun f =>
      match f with
      | Break => ret tt
      | FallThrough => run_clauses rest
      end
  end.

(** The clauses from the first [case] whose label is [===] to [v]. *)
Fixpoint from_case (v : string) (cs : list Clause) : option (list Clause) :=
  match cs with
  | [] => None
  | (case l, body) :: rest =>
      if v === l then Some cs else from_case v rest
  | (default, _) :: rest => from_case v rest
  end.

(** The clauses from [default]. *)
Fixpoint from_default (cs : list Clause) : option (list Clause) :=
  match cs with
  | [] => None
  | (default, body) :: rest => Some cs
  | (case _, _) :: rest => from_default rest
  end.

(** [switch (v) { ... }] *)
Definition switch (v : string) (cs : list Clause) : M unit :=
  match from_case v cs with
  | Some cs' => run_clauses cs'
  | None =>
      match from_default cs with
      | Some cs' => run_clauses cs'
      | None => ret tt
      end
  end.

(** ** Time *)

(** How the promise returned by a collaborator settles, and after how many
    milliseconds. *)
Definition Backend : Type := Call -> Settled * nat.

(** [d] milliseconds pass: the timers that are due run their callback
    [() => setIsRefreshing(false)]. *)
Definition elapse (d : nat) (w : Instance) : Instance :=
  let t := now w + d in
  let due := filter (fun x => x <=? t)%nat (timers w) in
  let pending := filter (fun x => negb (x <=? t)%nat) (timers w) in
  fold_left (fun w' _ => setIsRefreshing false w') due (setClock t pending w).

(** [setTimeout(() => setIsRefreshing(false), delay)] *)
Definition setTimeout_setIsRefreshing_false (delay : nat) (w : Instance)
  : Instance :=
  setClock (now w) (timers w ++ [now w + delay]) w.

(** [await f()] *)
Definition await (b : Backend) (f : Call) : M unit :=
  fun w =>
    let w' := elapse (snd (b f)) (emit f w) in
    match fst (b f) with
    | Resolved => (Returns tt, w')
    | Rejected e => (Throws e, w')
    end.

(** ** Refresh *)

Definition refreshFeed (b : Backend) : M unit :=
  fun w =>
    let inf := infiniteScroll (props w) in
    (stmt (setIsRefreshing true) >>
     try_finally
       (switch (activeTab w)
          [ (case "trending",
              (if inf then await b reloadTrendingInfinite
               else await b reloadTrending) >>
              ret Break);
            (case "following",
              (if inf then await b reloadFollowingInfinite
               else await b reloadFollowing) >>
              ret Break);
            (case "assets",
              (if inf then await b reloadAssetsInfinite
               else await b reloadAssets) >>
              ret Break);
            (case "creators",
              (if inf then await b reloadCreatorsInfinite
               else await b reloadCreators) >>
              ret FallThrough);
            (default,
              (if inf then await b reloadTrendingInfinite
               else await b reloadTrending) >>
              ret FallThrough) ])
       (setTimeout_setIsRefreshing_false 500)) w.

(** ** Fetching the next page *)

Definition fetchMoreForCurrentTab : M unit :=
  fun w =>
    let guarded (s : FeedSource) : M unit :=
      if hasNextPage (infinite w s)
         && negb (isFetchingNextPage (infinite w s))
      then stmt (emit (fetchNext s)) else ret tt in
    switch (activeTab w)
      [ (case "trending", guarded trending >> ret Break);
        (case "following", guarded following >> ret Break);
        (case "assets", guarded assets >> ret Break);
        (case "creators", guarded creators >> ret Break);
        (default, ret Break) ] w.

(** [fetchNextPage], the [onIntersect] callback of the observer. *)
Definition fetchNextPage : M unit :=
  fun w =>
    let t := getTabData w in
    (if hasMore t && negb (isLoadingMore t)
     then fetchMoreForCurrentTab else ret tt) w.

(** ** The infinite query hooks *)

(** Modelled from the spec: the hooks [useInfiniteAssetsQuery] and
    [useInfiniteCreatorsQuery] ('@/hooks/use-assets-query',
    '@/hooks/use-creators-query') are not part of the sources at hand.  The
    specification gives their contract: [fetchNextPage()] triggers the fetch
    of the next page and [isFetchingNextPage] is true while that page is in
    flight; a page that arrives is appended to [pages]; a failure surfaces as
    [error] and keeps the pages.  Whether the hook itself ignores a call made
    while it is fetching or has no next page is the flag [own_guard]: the
    properties below hold either way. *)
Definition hook_fetchNextPage (own_guard : bool) (q : InfiniteQuery)
  : InfiniteQuery :=
  if own_guard && (isFetchingNextPage q || negb (hasNextPage q)) then q
  else
    {| pages := pages q; iq_isLoading := iq_isLoading q;
       iq_error := iq_error q; hasNextPage := hasNextPage q;
       isFetchingNextPage := true;
       requested := S (requested q); settled := settled q |}.

(** Modelled from the spec: a page of items arrives and is appended;
    [more] tells whether the backend has a further page. *)
Definition hook_pageArrives (page : Page) (more : bool)
    (q : InfiniteQuery) : InfiniteQuery :=
  {| pages := Some (match pages q with
                    | Some ps => (ps ++ [page])%list
                    | None => [page]
                    end);
     iq_isLoading := false;
     iq_error := None; hasNextPage := more;
     isFetchingNextPage := false;
     requested := requested q; settled := S (settled q) |}.

(** Modelled from the spec: the fetch of a page fails. *)
Definition hook_pageFails (e : Thrown) (q : InfiniteQuery) : InfiniteQuery :=
  {| pages := pages q; iq_isLoading := false;
     iq_error := Some e; hasNextPage := hasNextPage q;
     isFetchingNextPage := false;
     requested := requested q; settled := S (settled q) |}.

(** A hook result before anything was fetched. *)
Definition idle_query : InfiniteQuery :=
  {| pages := None; iq_isLoading := false; iq_error := None;
     hasNextPage := false; isFetchingNextPage := false;
     requested := 0; settled := 0 |}.

(** The hook result after the pages [ps] were fetched one after the other. *)
Definition after_pages (ps : list (Page * bool)) : InfiniteQuery :=
  fold_left (fun q p => hook_pageArrives (fst p) (snd p) q) ps idle_query.

Definition FeedSource_eqb (a b : FeedSource) : bool :=
  match a, b with
  | trending, trending | following, following
  | assets, assets | creators, creators => true
  | _, _ => false
  end.

Definition update (s : FeedSource) (f : InfiniteQuery -> InfiniteQuery)
    (w : Instance) : Instance :=
  setInfinite
    (fun s' => if FeedSource_eqb s s' then f (infinite w s') else infinite w s')
    w.

(** The source a call asks the next page of. *)
Definition next_page_of (f : Call) : option FeedSource :=
  match f with
  | fetchNextTrendingPage => Some trending
  | fetchNextFollowingPage => Some following
  | fetchNextAssetsPage => Some assets
  | fetchNextCreatorsPage => Some creators
  | _ => None
  end.

(** The hooks take the calls the component made. *)
Definition deliver (own_guard : bool) (fs : list Call) (w : Instance)
  : Instance :=
  fold_left
    (fun w' f =>
       match next_page_of f with
       | Some s => update s (hook_fetchNextPage own_guard) w'
       | None => w'
       end)
    fs w.

(** The calls made between [w] and a later [w']. *)
Definition new_calls (w w' : Instance) : list Call :=
  skipn (length (calls w)) (calls w').

(** ** The feed as a machine *)

Inductive Input : Type :=
| Intersect                              (* the observer calls onIntersect *)
| PageArrives (s : FeedSource) (page : Page) (more : bool)
| PageFails (s : FeedSource) (e : Thrown)
| TabChange (tab : string)
| ViewModeChange (mode : ViewMode)
| Refresh (b : Backend)
| Wait (d : nat).

(** A response is taken only for a request that is in flight. *)
Definition in_flight (q : InfiniteQuery) : bool :=
  (settled q <? requested q)%nat.

Definition step (own_guard : bool) (w : Instance) (i : Input) : Instance :=
  match i with
  | Intersect =>
      let w' := snd (fetchNextPage w) in
      deliver own_guard (new_calls w w') w'
  | PageArrives s page more =>
      if in_flight (infinite w s)
      then update s (hook_pageArrives page more) w else w
  | PageFails s e =>
      if in_flight (infinite w s)
      then update s (hook_pageFails e) w else w
  | TabChange tab => handleTabChange tab w
  | ViewModeChange mode => handleViewModeChange mode w
  | Refresh b => snd (refreshFeed b w)
  | Wait d => elapse d w
  end.

Definition run (own_guard : bool) (w : Instance) (inputs : list Input)
  : Instance :=
  fold_left (step own_guard) inputs w.

(** A feed whose hooks have fetched nothing yet. *)
Definition fresh (p : Props) (s : option Session)
    (flags : FeedSource -> bool) (pg : FeedSource -> PagedQuery) : Instance :=
  mount p s
    (fun src =>
       {| pages := None; iq_isLoading := false; iq_error := None;
          hasNextPage := flags src; isFetchingNextPage := false;
          requested := 0; settled := 0 |})
    pg.

(** ** Rendering *)

(** [String(n)], as a template literal prints a number [n], for an integer
    [n] with [|n| < 10^21]: its decimal digits.  (From [10^21] on JavaScript
    prints the exponent form, which this function does not; what is proved
    of its results is proved within the bound.) *)
Definition String_of (n : Z) : string :=
  NilZero.string_of_int (Z.to_int n).

(** [s.toLowerCase()], on code units below 256. *)
Definition toLowerCase_unit (a : ascii) : ascii :=
  let n := nat_of_ascii a in
  if ((65 <=? n) && (n <=? 90)
      || (192 <=? n) && (n <=? 222) && negb (n =? 215))%nat
  then ascii_of_nat (n + 32) else a.

Fixpoint toLowerCase (s : string) : string :=
  match s with
  | EmptyString => EmptyString
  | String a rest => String (toLowerCase_unit a) (toLowerCase rest)
  end.

Definition getGridClass (w : Instance) : string :=
  if negb (is_grid (viewMode w)) then "space-y-4"
  else if (currentItemsPerRow w =? 1)%Z then
    "grid grid-cols-1 gap-6 max-w-2xl mx-auto"
  else
    let gridClass :=
      if showCurrentSidecards w then "grid-single-feed"
      else "grid-cols-1 sm:grid-cols-2 md:grid-cols-"
           ++ String_of (Z.min (currentItemsPerRow w) 3)
           ++ " lg:grid-cols-" ++ String_of (currentItemsPerRow w)
           ++ " gap-6" in
    "grid " ++ gridClass.

(** An entry of the [tabs] prop; [requiredAuth] is optional. *)
Record TabOption : Type := {
  tab_key : string;                      (* id *)
  label : string;
  requiredAuth : bool
}.

Definition DEFAULT_TABS : list TabOption :=
  [ {| tab_key := "trending"; label := "Trending"; requiredAuth := false |};
    {| tab_key := "following"; label := "Following"; requiredAuth := true |} ].

(** What stands below the cards of an assets tab when there is more. *)
Inductive LoadMoreArea : Type :=
| sentinel (spinner : bool)              (* infinite scroll: the observed div *)
| load_more_button (disabled : bool).    (* otherwise: the "Load More" button *)

(** What a [TabsContent] holds. *)
Inductive Content : Type :=
| SignInPrompt
| LoadingState (type : string)
| ErrorState (error : string)            (* onRetry = refreshFeed *)
| EmptyState (message : string)
| EmptyFollowingState (custom : bool)    (* renderEmptyFollowingState() *)
| CreatorCards (className : string) (creators : list Item)
    (variant : ViewMode)
| AssetCards (className : string) (assets : list Item) (variant : string)
    (more : option LoadMoreArea) (reachedEnd : bool).

(** [error instanceof Error ? error.message : fallback] *)
Definition messageOr (fallback : string) (e : Thrown) : string :=
  match e with
  | ErrorObject message => message
  | NotAnError => fallback
  end.

(** The content of the tab [tab]; [emptyFollowingComponent] tells whether
    that prop is given. *)
Definition tabContent (tab : TabOption) (emptyFollowingComponent : bool)
    (w : Instance) : Content :=
  let t := getTabData w in
  if (tab_key tab === "following") && negb (signedIn w) then SignInPrompt
  else if tab_key tab === "creators" then
    if isLoading t then LoadingState "creator"
    else match error t with
         | Some e => ErrorState (messageOr "Failed to load creators" e)
         | None =>
             if (length (data t) =? 0)%nat
             then EmptyState "No creators found."
             else CreatorCards (getGridClass w) (data t) (viewMode w)
         end
  else
    if isLoading t then LoadingState "asset"
    else match error t with
         | Some e => ErrorState (messageOr "Failed to load assets" e)
         | None =>
             if (length (data t) =? 0)%nat then
               if tab_key tab === "following"
               then EmptyFollowingState emptyFollowingComponent
               else EmptyState ("No " ++ toLowerCase (label tab) ++ " found.")
             else
               AssetCards
                 (if is_grid (viewMode w) then getGridClass w
                  else "space-y-4")
                 (data t)
                 (if is_grid (viewMode w) then "vertical" else "horizontal")
                 (if hasMore t then
                    Some (if infiniteScroll (props w)
                          then sentinel (isLoadingMore t)
                          else load_more_button (isLoadingMore t))
                  else None)
                 (negb (hasMore t) && negb (isLoading t)
                  && (0 <? length (data t))%nat)
         end.

(** A click on the "Load More" button of the tab, if it is there and not
    disabled: [onClick={() => loadMore()}]. *)
Definition clickLoadMore (tab : TabOption) (emptyFollowingComponent : bool)
    (w : Instance) : Instance :=
  match tabContent tab emptyFollowingComponent w with
  | AssetCards _ _ _ (Some (load_more_button false)) _ =>
      emit (loadMore (getTabData w)) w
  | _ => w
  end.

(** A click on the trigger of the tab: [disabled={tab.requiredAuth &&
    !session}], [onValueChange={handleTabChange}]. *)
Definition clickTab (tab : TabOption) (w : Instance) : Instance :=
  if requiredAuth tab && negb (signedIn w) then w
  else handleTabChange (tab_key tab) w.

(** A click on "Refresh": [disabled={isLoading || isRefreshing}]. *)
Definition clickRefresh (b : Backend) (w : Instance) : Instance :=
  if isLoading (getTabData w) || isRefreshing w then w
  else snd (refreshFeed b w).

(** The options of one of the eight query calls: the infinite or the paged
    query of a source. *)
Definition queryOptions (DEFAULT_LIMIT : nat) (inf : bool) (s : FeedSource)
    (w : Instance) : QueryOptions :=
  if inf then infiniteOptions DEFAULT_LIMIT s w
  else pagedOptions DEFAULT_LIMIT s w.

(** The reload [refreshFeed] calls for a source. *)
Definition reloadOf (inf : bool) (s : FeedSource) : Call :=
  match s, inf with
  | trending, true => reloadTrendingInfinite
  | trending, false => reloadTrending
  | following, true => reloadFollowingInfinite
  | following, false => reloadFollowing
  | assets, true => reloadAssetsInfinite
  | assets, false => reloadAssets
  | creators, true => reloadCreatorsInfinite
  | creators, false => reloadCreators
  end.


(** The tab id is none of the four the feed knows. *)
Definition unknown_tab (tab : string) : Prop :=
  forall s, tab <> tab_id s.

(** A statement keeps a property of the feed. *)
Definition keeps {A : Type} (P : Instance -> Prop) (c : M A) : Prop :=
  forall w, P w -> P (snd (c w)).

(** ** Notions the properties are stated with *)

(** The identities of a list of items. *)
Definition ids (l : list Item) : list string := map item_id l.

(** The backend honours its cursor contract on the pages [ps]: no page
    holds an identity twice, and no identity of a page comes again in a later
    page. *)
Definition cursor_contract (ps : list (list Item)) : Prop :=
  Forall (fun page => NoDup (ids page)) ps
  /\ ForallOrdPairs
       (fun page later => forall a, In a (ids page) -> ~ In a (ids later)) ps.

(** The filters among the options of a query. *)
Definition filters (o : QueryOptions)
  : option string * option string * option string :=
  (search o, tag o, type o).

(** A source has no next-page request in flight, or exactly one and its
    [isFetchingNextPage] is on. *)
Definition one_at_a_time (q : InfiniteQuery) : Prop :=
  (requested q = settled q /\ isFetchingNextPage q = false)
  \/ (requested q = S (settled q) /\ isFetchingNextPage q = true).

(** A statement leaves the results of the infinite query hooks alone. *)
Definition frame {A : Type} (c : M A) : Prop :=
  forall w, infinite (snd (c w)) = infinite w.

End DashboardFeed.

(** * ProfileSettingsPage *)

(** The profile settings page (src/app/settings/profile/page.tsx): a form
    validated by a zod schema, an effect that fills the form from the session
    and the profile API, two image pickers and the submit handler.  A string
    stands for the JavaScript string whose code units are its characters. *)

Module ProfileSettingsPage.

(** ** Values *)

(** Truthiness of a [string | null | undefined]. *)
Definition truthy (v : option string) : bool :=
  match v with
  | Some s => negb (s =? "")
  | None => false
  end.

(** [a || b] *)
Definition or (a b : option string) : option string :=
  if truthy a then a else b.

(** [a || ''] *)
Definition orEmpty (a : option string) : string :=
  match a with
  | Some s => s
  | None => ""
  end.

(** [session.user] as this page reads it. *)
Record SessionUser : Type := {
  user_id : option string;
  user_name : option string;
  user_username : option string;
  user_image : option string
}.

Record PageSession : Type := { session_user : option SessionUser }.

(** [ProfileFormValues] *)
Record ProfileFormValues : Type := {
  name : string;
  username : string;
  bio : option string;
  location : option string;
  website : option string;
  twitter : option string;
  github : option string;
  linkedin : option string
}.

Record Social : Type := {
  social_website : option string;
  social_twitter : option string;
  social_github : option string;
  social_linkedin : option string
}.

(** What [api.users.getProfile] resolves to. *)
Record UserData : Type := {
  data_name : option string;
  data_username : option string;
  data_bio : option string;
  data_location : option string;
  data_social : option Social;
  data_bannerImage : option string
}.

(** What [api.users.updateProfile] resolves to. *)
Record UpdatedUser : Type := {
  updated_name : option string;
  updated_username : option string;
  updated_image : option string
}.

(** A [File]; [file_dataURL] is what a [FileReader] reads from it. *)
Record File : Type := { file_name : string; file_dataURL : string }.

(** [{ ...data, image, bannerImage }] *)
Record ProfileData : Type := {
  values : ProfileFormValues;
  image : option string;
  bannerImage_url : option string
}.

(** What a collaborator throws. *)
Inductive Exn : Type :=
| ApiError (message : string)
| OtherError.

Inductive Result (A : Type) : Type :=
| Fulfilled (a : A)
| Rejects (e : Exn).
Arguments Fulfilled {A} a.
Arguments Rejects {A} e.

(** ** The schema *)

(** The checks of a [z.string()]. *)
Inductive Check : Type :=
| min (n : nat) (message : string)
| max (n : nat) (message : string)
| regex (pattern : string -> bool) (message : string).

Definition issue (c : Check) (v : string) : option string :=
  match c with
  | min n message => if (String.length v <? n)%nat then Some message else None
  | max n message => if (n <? String.length v)%nat then Some message else None
  | regex pattern message => if pattern v then None else Some message
  end.

(** Every check runs; the form shows the first issue of a field. *)
Fixpoint issues (cs : list Check) (v : string) : list string :=
  match cs with
  | [] => []
  | c :: rest =>
      match issue c v with
      | Some message => message :: issues rest v
      | None => issues rest v
      end
  end.

Definition firstIssue (cs : list Check) (v : string) : option string :=
  hd_error (issues cs v).

(** [.optional()] *)
Definition optional (cs : list Check) (v : option string) : option string :=
  match v with
  | Some s => firstIssue cs s
  | None => None
  end.

(** A code unit of [[a-zA-Z0-9_]]. *)
Definition word_unit (a : ascii) : bool :=
  let n := nat_of_ascii a in
  ((97 <=? n) && (n <=? 122) || (65 <=? n) && (n <=? 90)
   || (48 <=? n) && (n <=? 57) || (n =? 95))%nat.

Fixpoint every (p : ascii -> bool) (s : string) : bool :=
  match s with
  | EmptyString => true
  | String a rest => p a && every p rest
  end.

(** [/^[a-zA-Z0-9_]+$/.test(s)] *)
Definition username_pattern (s : string) : bool :=
  negb (s =? "") && every word_unit s.

(** [formState.errors], by field. *)
Record FieldErrors : Type := {
  name_error : option string;
  username_error : option string;
  bio_error : option string;
  location_error : option string;
  website_error : option string;
  twitter_error : option string;
  github_error : option string;
  linkedin_error : option string
}.

Definition profileSchema (v : ProfileFormValues) : FieldErrors :=
  {| name_error :=
       firstIssue [min 2 "Name must be at least 2 characters"] (name v);
     username_error :=
       firstIssue
         [min 3 "Username must be at least 3 characters";
          regex username_pattern
            "Username can only contain letters, numbers, and underscores"]
         (username v);
     bio_error :=
       optional [max 500 "Bio must be at most 500 characters"] (bio v);
     location_error := optional [] (location v);
     website_error := optional [] (website v);
     twitter_error := optional [] (twitter v);
     github_error := optional [] (github v);
     linkedin_error := optional [] (linkedin v) |}.

Definition no_errors : FieldErrors :=
  {| name_error := None; username_error := None; bio_error := None;
     location_error := None; website_error := None; twitter_error := None;
     github_error := None; linkedin_error := None |}.

Definition is_none (v : option string) : bool :=
  match v with None => true | Some _ => false end.

Definition valid (e : FieldErrors) : bool :=
  is_none (name_error e) && is_none (username_error e)
  && is_none (bio_error e) && is_none (location_error e)
  && is_none (website_error e) && is_none (twitter_error e)
  && is_none (github_error e) && is_none (linkedin_error e).

(** ** The page *)

Inductive Effect : Type :=
| toast_error (message : string)
| toast_success (message : string)
| console_error (what : string)
| api_getProfile (who : string)
| startProfileUpload_call (files : list File)
| startBannerUpload_call (files : list File)
| api_updateProfile (d : ProfileData)
| update_call (new_name new_username new_image : option string)
| router_refresh
| readAsDataURL (f : File).

Record Page : Type := {
  session : option PageSession;
  isUpdating : bool;
  isLoading : bool;
  error : option string;
  profileImage : option File;
  profileImagePreview : option string;
  bannerImage : option File;
  bannerImagePreview : option string;
  form_values : ProfileFormValues;       (* the form of useForm *)
  form_errors : FieldErrors;             (* formState.errors *)
  isSubmitted : bool;                    (* formState.isSubmitted *)
  reading : list File;                   (* FileReaders at work *)
  effects : list Effect                  (* oldest first *)
}.

Definition setSession (v : option PageSession) (c : Page) : Page :=
  {| session := v; isUpdating := isUpdating c; isLoading := isLoading c;
     error := error c; profileImage := profileImage c;
     profileImagePreview := profileImagePreview c;
     bannerImage := bannerImage c;
     bannerImagePreview := bannerImagePreview c;
     form_values := form_values c; form_errors := form_errors c;
     isSubmitted := isSubmitted c;
     reading := reading c; effects := effects c |}.

Definition setIsUpdating (v : bool) (c : Page) : Page :=
  {| session := session c; isUpdating := v; isLoading := isLoading c;
     error := error c; profileImage := profileImage c;
     profileImagePreview := profileImagePreview c;
     bannerImage := bannerImage c;
     bannerImagePreview := bannerImagePreview c;
     form_values := form_values c; form_errors := form_errors c;
     isSubmitted := isSubmitted c;
     reading := reading c; effects := effects c |}.

Definition setIsLoading (v : bool) (c : Page) : Page :=
  {| session := session c; isUpdating := isUpdating c; isLoading := v;
     error := error c; profileImage := profileImage c;
     profileImagePreview := profileImagePreview c;
     bannerImage := bannerImage c;
     bannerImagePreview := bannerImagePreview c;
     form_values := form_values c; form_errors := form_errors c;
     isSubmitted := isSubmitted c;
     reading := reading c; effects := effects c |}.

Definition setError (v : option string) (c : Page) : Page :=
  {| session := session c; isUpdating := isUpdating c;
     isLoading := isLoading c;
     error := v; profileImage := profileImage c;
     profileImagePreview := profileImagePreview c;
     bannerImage := bannerImage c;
     bannerImagePreview := bannerImagePreview c;
     form_values := form_values c; form_errors := form_errors c;
     isSubmitted := isSubmitted c;
     reading := reading c; effects := effects c |}.

Definition setProfileImage (v : option File) (c : Page) : Page :=
  {| session := session c; isUpdating := isUpdating c;
     isLoading := isLoading c;
     error := error c; profileImage := v;
     profileImagePreview := profileImagePreview c;
     bannerImage := bannerImage c;
     bannerImagePreview := bannerImagePreview c;
     form_values := form_values c; form_errors := form_errors c;
     isSubmitted := isSubmitted c;
     reading := reading c; effects := effects c |}.

Definition setProfileImagePreview (v : option string) (c : Page) : Page :=
  {| session := session c; isUpdating := isUpdating c;
     isLoading := isLoading c;
     error := error c; profileImage := profileImage c;
     profileImagePreview := v;
     bannerImage := bannerImage c;
     bannerImagePreview := bannerImagePreview c;
     form_values := form_values c; form_errors := form_errors c;
     isSubmitted := isSubmitted c;
     reading := reading c; effects := effects c |}.

Definition setBannerImage (v : option File) (c : Page) : Page :=
  {| session := session c; isUpdating := isUpdating c;
     isLoading := isLoading c;
     error := error c; profileImage := profileImage c;
     profileImagePreview := profileImagePreview c;
     bannerImage := v;
     bannerImagePreview := bannerImagePreview c;
     form_values := form_values c; form_errors := form_errors c;
     isSubmitted := isSubmitted c;
     reading := reading c; effects := effects c |}.

Definition setBannerImagePreview (v : option string) (c : Page) : Page :=
  {| session := session c; isUpdating := isUpdating c;
     isLoading := isLoading c;
     error := error c; profileImage := profileImage c;
     profileImagePreview := profileImagePreview c;
     bannerImage := bannerImage c;
     bannerImagePreview := v;
     form_values := form_values c; form_errors := form_errors c;
     isSubmitted := isSubmitted c;
     reading := reading c; effects := effects c |}.

(** [form.reset(values)]: the values are replaced, the errors cleared and
    the form is as before its first submission. *)
Definition form_reset (v : ProfileFormValues) (c : Page) : Page :=
  {| session := session c; isUpdating := isUpdating c;
     isLoading := isLoading c;
     error := error c; profileImage := profileImage c;
     profileImagePreview := profileImagePreview c;
     bannerImage := bannerImage c;
     bannerImagePreview := bannerImagePreview c;
     form_values := v; form_errors := no_errors;
     isSubmitted := false;
     reading := reading c; effects := effects c |}.

Definition same (a b : option string) : bool :=
  match a, b with
  | Some x, Some y => x =? y
  | None, None => true
  | _, _ => false
  end.

(** The errors after the values changed from [before] to [after] in a form
    that was submitted: every field that changed is validated again. *)
Definition revalidated (old : FieldErrors)
    (before after : ProfileFormValues) : FieldErrors :=
  {| name_error :=
       if name before =? name after then name_error old
       else name_error (profileSchema after);
     username_error :=
       if username before =? username after then username_error old
       else username_error (profileSchema after);
     bio_error :=
       if same (bio before) (bio after) then bio_error old
       else bio_error (profileSchema after);
     location_error :=
       if same (location before) (location after) then location_error old
       else location_error (profileSchema after);
     website_error :=
       if same (website before) (website after) then website_error old
       else website_error (profileSchema after);
     twitter_error :=
       if same (twitter before) (twitter after) then twitter_error old
       else twitter_error (profileSchema after);
     github_error :=
       if same (github before) (github after) then github_error old
       else github_error (profileSchema after);
     linkedin_error :=
       if same (linkedin before) (linkedin after) then linkedin_error old
       else linkedin_error (profileSchema after) |}.

(** The user edits the registered inputs.  The form validates on submit and,
    once it was submitted, again on every change (the modes [useForm] has
    when none is given). *)
Definition form_input (v : ProfileFormValues) (c : Page) : Page :=
  {| session := session c; isUpdating := isUpdating c;
     isLoading := isLoading c;
     error := error c; profileImage := profileImage c;
     profileImagePreview := profileImagePreview c;
     bannerImage := bannerImage c;
     bannerImagePreview := bannerImagePreview c;
     form_values := v;
     form_errors := if isSubmitted c
                    then revalidated (form_errors c) (form_values c) v
                    else form_errors c;
     isSubmitted := isSubmitted c;
     reading := reading c; effects := effects c |}.

Definition setFormErrors (v : FieldErrors) (c : Page) : Page :=
  {| session := session c; isUpdating := isUpdating c;
     isLoading := isLoading c;
     error := error c; profileImage := profileImage c;
     profileImagePreview := profileImagePreview c;
     bannerImage := bannerImage c;
     bannerImagePreview := bannerImagePreview c;
     form_values := form_values c; form_errors := v;
     isSubmitted := isSubmitted c;
     reading := reading c; effects := effects c |}.

Definition setIsSubmitted (v : bool) (c : Page) : Page :=
  {| session := session c; isUpdating := isUpdating c;
     isLoading := isLoading c;
     error := error c; profileImage := profileImage c;
     profileImagePreview := profileImagePreview c;
     bannerImage := bannerImage c;
     bannerImagePreview := bannerImagePreview c;
     form_values := form_values c; form_errors := form_errors c;
     isSubmitted := v;
     reading := reading c; effects := effects c |}.

Definition setReading (v : list File) (c : Page) : Page :=
  {| session := session c; isUpdating := isUpdating c;
     isLoading := isLoading c;
     error := error c; profileImage := profileImage c;
     profileImagePreview := profileImagePreview c;
     bannerImage := bannerImage c;
     bannerImagePreview := bannerImagePreview c;
     form_values := form_values c; form_errors := form_errors c;
     isSubmitted := isSubmitted c;
     reading := v; effects := effects c |}.

Definition emit (e : Effect) (c : Page) : Page :=
  {| session := session c; isUpdating := isUpdating c;
     isLoading := isLoading c;
     error := error c; profileImage := profileImage c;
     profileImagePreview := profileImagePreview c;
     bannerImage := bannerImage c;
     bannerImagePreview := bannerImagePreview c;
     form_values := form_values c; form_errors := form_errors c;
     isSubmitted := isSubmitted c;
     reading := reading c; effects := effects c ++ [e] |}.

(** ** Statements that may throw *)

Inductive Outcome (A : Type) : Type :=
| Returns (a : A)
| Throws (e : Exn).
Arguments Returns {A} a.
Arguments Throws {A} e.

Definition M (A : Type) : Type := Page -> Outcome A * Page.

Definition ret {A : Type} (a : A) : M A := fun c => (Returns a, c).

Definition bind {A B : Type} (m : M A) (k : A -> M B) : M B :=
  fun c =>
    match m c with
    | (Returns a, c') => k a c'
    | (Throws e, c') => (Throws e, c')
    end.

Notation "m >>= k" := (bind m k) (at level 62, left associativity).
Notation "m >> n" := (bind m (fun _ => n)) (at level 62, left associativity).

Definition stmt (f : Page -> Page) : M unit := fun c => (Returns tt, f c).

(** [try { body } catch (err) { handler }] *)
Definition try_catch {A : Type} (body : M A) (handler : Exn -> M A) : M A :=
  fun c =>
    match body c with
    | (Returns a, c') => (Returns a, c')
    | (Throws e, c') => handler e c'
    end.

(** [try { body } catch (err) { handler } finally { finalizer }] *)
Definition try_catch_finally {A : Type} (body : M A) (handler : Exn -> M A)
    (finalizer : Page -> Page) : M A :=
  fun c => let (r, c') := try_catch body handler c in (r, finalizer c').

(** [await f(...)]: the call is made and its promise settles. *)
Definition await {A : Type} (call : Effect) (r : Result A) : M A :=
  fun c =>
    match r with
    | Fulfilled a => (Returns a, emit call c)
    | Rejects e => (Throws e, emit call c)
    end.

(** How the collaborators answer.  An upload resolves to [undefined] or to
    the [ufsUrl]s of the uploaded files; [update] of [useSession] may be
    missing. *)
Record Backend : Type := {
  getProfile : string -> Result UserData;
  startProfileUpload : list File -> Result (option (list string));
  startBannerUpload : list File -> Result (option (list string));
  updateProfile : ProfileData -> Result UpdatedUser;
  update : option (Result unit)
}.

(** ** The effect that loads the profile *)

Definition fetchUserProfile (b : Backend) : M unit :=
  fun c =>
    match session c with
    | None => ret tt c
    | Some s =>
        match session_user s with
        | None => ret tt c
        | Some u =>
            if negb (truthy (user_id u)) then ret tt c
            else
              (stmt (setIsLoading true) >>
               try_catch_finally
                 (stmt (form_reset
                          {| name := orEmpty (or (user_name u) (Some ""));
                             username :=
                               orEmpty (or (user_username u) (Some ""));
                             bio := Some ""; location := Some "";
                             website := Some ""; twitter := Some "";
                             github := Some ""; linkedin := Some "" |}) >>
                  (if truthy (user_image u)
                   then stmt (setProfileImagePreview (user_image u))
                   else ret tt) >>
                  try_catch
                    (if truthy (user_username u) then
                       await (api_getProfile (orEmpty (user_username u)))
                         (getProfile b (orEmpty (user_username u)))
                       >>= fun userData =>
                       stmt (form_reset
                               {| name :=
                                    orEmpty
                                      (or (or (data_name userData)
                                              (user_name u)) (Some ""));
                                  username :=
                                    orEmpty
                                      (or (or (data_username userData)
                                              (user_username u)) (Some ""));
                                  bio := or (data_bio userData) (Some "");
                                  location :=
                                    or (data_location userData) (Some "");
                                  website :=
                                    or (match data_social userData with
                                        | Some so => social_website so
                                        | None => None
                                        end) (Some "");
                                  twitter :=
                                    or (match data_social userData with
                                        | Some so => social_twitter so
                                        | None => None
                                        end) (Some "");
                                  github :=
                                    or (match data_social userData with
                                        | Some so => social_github so
                                        | None => None
                                        end) (Some "");
                                  linkedin :=
                                    or (match data_social userData with
                                        | Some so => social_linkedin so
                                        | None => None
                                        end) (Some "") |}) >>
                       (if truthy (data_bannerImage userData)
                        then stmt (setBannerImagePreview
                                     (data_bannerImage userData))
                        else ret tt)
                     else ret tt)
                    (fun err =>
                       stmt (emit (console_error
                                     "Error fetching user profile:"))) >>
                  stmt (setError None))
                 (fun err =>
                    stmt (emit (console_error
                                  "Error initializing profile form:")) >>
                    stmt (setError (Some "Failed to load profile data")))
                 (setIsLoading false)) c
        end
    end.

(** ** The image pickers *)

(** The argument of [onChange]: a [File], a string or nothing. *)
Inductive Picked : Type :=
| picked_file (f : File)
| picked_string (s : string)
| picked_nothing.

Definition handleProfileImageChange (value : Picked) : Page -> Page :=
  match value with
  | picked_file f => setProfileImage (Some f)
  | picked_string s => setProfileImagePreview (Some s)
  | picked_nothing => fun c => c
  end.

(** With a [File], the reader is started; its [onload] comes later. *)
Definition handleBannerImageChange (value : Picked) : Page -> Page :=
  match value with
  | picked_file f =>
      fun c =>
        setReading (reading c ++ [f])
          (emit (readAsDataURL f) (setBannerImage (Some f) c))
  | picked_string s => setBannerImagePreview (Some s)
  | picked_nothing => fun c => c
  end.

(** [reader.onload]: the oldest reader at work is done. *)
Definition reader_onload (c : Page) : Page :=
  match reading c with
  | [] => c
  | f :: rest =>
      setBannerImagePreview (Some (file_dataURL f)) (setReading rest c)
  end.

(** ** Submitting *)

(** [if (uploadResult && uploadResult[0]) url = uploadResult[0].ufsUrl] *)
Definition uploadedOr (url : option string)
    (uploadResult : option (list string)) : option string :=
  match uploadResult with
  | Some (first :: _) => Some first
  | _ => url
  end.

Definition onSubmit (b : Backend) (data : ProfileFormValues) : M unit :=
  fun c =>
    match session c with
    | None =>
        stmt (emit (toast_error
                      "You must be signed in to update your profile")) c
    | Some s =>
        (stmt (setIsUpdating true) >>
         try_catch_finally
           ((match profileImage c with
             | Some f =>
                 await (startProfileUpload_call [f])
                   (startProfileUpload b [f])
                 >>= fun uploadResult =>
                 ret (uploadedOr (profileImagePreview c) uploadResult)
             | None => ret (profileImagePreview c)
             end) >>= fun profileImageUrl =>
            (match bannerImage c with
             | Some f =>
                 await (startBannerUpload_call [f])
                   (startBannerUpload b [f])
                 >>= fun uploadResult =>
                 ret (uploadedOr (bannerImagePreview c) uploadResult)
             | None => ret (bannerImagePreview c)
             end) >>= fun bannerImageUrl =>
            let profileData :=
              {| values := data; image := profileImageUrl;
                 bannerImage_url := bannerImageUrl |} in
            await (api_updateProfile profileData)
              (updateProfile b profileData)
            >>= fun updatedUser =>
            (match update b with
             | Some settles =>
                 await (update_call (updated_name updatedUser)
                          (updated_username updatedUser)
                          (updated_image updatedUser)) settles >>
                 stmt (emit router_refresh)
             | None => ret tt
             end) >>
            stmt (emit (toast_success "Profile updated successfully!")))
           (fun error =>
              stmt (emit (console_error "Profile update error:")) >>
              stmt (emit (toast_error
                            match error with
                            | ApiError message => message
                            | OtherError =>
                                "Failed to update profile. Please try again."
                            end)))
           (setIsUpdating false)) c
    end.

(** [form.handleSubmit(onSubmit)]: the values are validated; [onSubmit]
    runs when they pass, the errors are shown when they do not; either way
    the form counts as submitted. *)
Definition handleSubmit (b : Backend) (c : Page) : Page :=
  let errors := profileSchema (form_values c) in
  if valid errors
  then snd (onSubmit b (form_values c)
              (setIsSubmitted true (setFormErrors no_errors c)))
  else setIsSubmitted true (setFormErrors errors c).

(** ** What is shown *)

Inductive View : Type :=
| SignInView
| LoadingView
| ErrorView (message : string)
| FormView (errors : FieldErrors) (saving : bool).

Definition render (c : Page) : View :=
  match session c with
  | None => SignInView
  | Some _ =>
      if isLoading c then LoadingView
      else if truthy (error c) then ErrorView (orEmpty (error c))
      else FormView (form_errors c) (isUpdating c)
  end.

(** A click on "Save changes" of either tab. *)
Definition clickSave (b : Backend) (c : Page) : Page :=
  match render c with
  | FormView _ false => handleSubmit b c
  | _ => c
  end.

(** ** The page as a machine *)

Definition initial (s : option PageSession) : Page :=
  {| session := s; isUpdating := false; isLoading := true; error := None;
     profileImage := None; profileImagePreview := None;
     bannerImage := None; bannerImagePreview := None;
     form_values := {| name := ""; username := ""; bio := Some "";
                       location := Some ""; website := Some "";
                       twitter := Some ""; github := Some "";
                       linkedin := Some "" |};
     form_errors := no_errors; isSubmitted := false;
     reading := []; effects := [] |}.

Definition mount (s : option PageSession) (b : Backend) : Page :=
  snd (fetchUserProfile b (initial s)).

Inductive Input : Type :=
| SessionChanges (s : option PageSession) (b : Backend)
| Types (v : ProfileFormValues)
| PicksProfileImage (value : Picked)
| PicksBannerImage (value : Picked)
| ReaderLoads
| Saves (b : Backend).

(** The form and the pickers are there only in the form view. *)
Definition in_form (c : Page) : bool :=
  match render c with FormView _ _ => true | _ => false end.

Definition step (c : Page) (i : Input) : Page :=
  match i with
  | SessionChanges s b => snd (fetchUserProfile b (setSession s c))
  | Types v => if in_form c then form_input v c else c
  | PicksProfileImage value =>
      if in_form c then handleProfileImageChange value c else c
  | PicksBannerImage value =>
      if in_form c then handleBannerImageChange value c else c
  | ReaderLoads => reader_onload c
  | Saves b => clickSave b c
  end.

Definition run (c : Page) (inputs : list Input) : Page :=
  fold_left step inputs c.

Definition new_effects (c c' : Page) : list Effect :=
  skipn (length (effects c)) (effects c').

Definition is_toast (e : Effect) : bool :=
  match e with
  | toast_error _ | toast_success _ => true
  | _ => false
  end.

Definition is_updateProfile (e : Effect) : bool :=
  match e with api_updateProfile _ => true | _ => false end.

Definition is_session_change (i : Input) : bool :=
  match i with SessionChanges _ _ => true | _ => false end.

(** The session has a user with an id. *)
Definition identified (s : option PageSession) : option SessionUser :=
  match s with
  | Some s' =>
      match session_user s' with
      | Some u => if truthy (user_id u) then Some u else None
      | None => None
      end
  | None => None
  end.

(** The page [c] with the effects [l] added. *)
Definition log (l : list Effect) (c : Page) : Page :=
  {| session := session c; isUpdating := isUpdating c;
     isLoading := isLoading c;
     error := error c; profileImage := profileImage c;
     profileImagePreview := profileImagePreview c;
     bannerImage := bannerImage c;
     bannerImagePreview := bannerImagePreview c;
     form_values := form_values c; form_errors := form_errors c;
     isSubmitted := isSubmitted c;
     reading := reading c; effects := effects c ++ l |}.

(** The message of the error toast of [onSubmit]. *)
Definition submit_error_message (e : Exn) : string :=
  match e with
  | ApiError message => message
  | OtherError => "Failed to update profile. Please try again."
  end.

End ProfileSettingsPage.

(** * Scenarios *)

Module FollowScenario.
Import FollowButton.

(** A signed-in viewer looking at the card of another user, whom they do
    not follow; the parent passes no [onFollowChange] and keeps the
    [isFollowing] prop as it is. *)
Definition viewer : option Session := Some {| user := Some {| id := "u1" |} |}.

Definition card : Props :=
  {| userId := "u2"; initialIsFollowing := false; onFollowChange := false;
     variant := "pixel"; showIcon := false; showText := true |}.

(** The same card once the parent has refetched and passes
    [isFollowing = true]. *)
Definition card_refetched : Props :=
  {| userId := "u2"; initialIsFollowing := true; onFollowChange := false;
     variant := "pixel"; showIcon := false; showText := true |}.

(** The viewer's own card. *)
Definition own_card : Props :=
  {| userId := "u1"; initialIsFollowing := false; onFollowChange := true;
     variant := "pixel"; showIcon := false; showText := true |}.

(** The viewer followed "u2" and the mutation succeeded. *)
Definition followed : Instance :=
  run (mount card viewer) [Click; Settle Resolved].

(** Then they click again: the unfollow mutation is in flight. *)
Definition unfollowing : Instance := step followed Click.

(** The unfollow mutation is rejected. *)
Definition unfollow_failed : Instance :=
  step unfollowing (Settle (Rejected (ErrorObject "Network error"))).

End FollowScenario.

Module FeedScenario.
Import DashboardFeed.

Definition viewer : option Session := Some {| user := Some {| id := "u1" |} |}.

Definition no_items : FeedSource -> PagedQuery :=
  fun _ => {| items := []; pq_isLoading := false; pq_error := None;
              pq_hasMore := false; pq_isLoadingMore := false |}.

(** The home page feed: sidecards, three items per row, infinite scroll. *)
Definition home_props : Props :=
  {| initialTab := "trending"; searchQuery := ""; selectedTags := [];
     selectedType := None; infiniteScroll := true; itemsPerRow := 3;
     showSidecards := true; defaultViewMode := grid;
     onViewModeChange := false |}.

Definition home : Instance :=
  fresh home_props viewer (fun _ => true) no_items.

(** The explore page feed on its creators tab, filtered. *)
Definition explore_props : Props :=
  {| initialTab := "creators"; searchQuery := "pixel";
     selectedTags := ["2d"; "rpg"]; selectedType := Some "sprite";
     infiniteScroll := true; itemsPerRow := 4;
     showSidecards := false; defaultViewMode := grid;
     onViewModeChange := false |}.

Definition explore : Instance :=
  fresh explore_props viewer (fun _ => true) no_items.

(** The trending source of [home] is fetching its next page. *)
Definition home_fetching : Instance := step false home Intersect.

(** A backend whose reloads all succeed after 120 ms, and one whose reloads
    all fail after 120 ms. *)
Definition reloads_succeed : Backend := fun _ => (Resolved, 120).
Definition reloads_fail : Backend :=
  fun _ => (Rejected (ErrorObject "Failed to fetch"), 120).

(** Two pages of a source. *)
Definition page1 : Page :=
  {| page_items := [ {| item_id := "a1" |}; {| item_id := "a2" |} ] |}.
Definition page2 : Page := {| page_items := [ {| item_id := "a3" |} ] |}.

Definition home_two_pages : Instance :=
  update trending (fun _ => after_pages [(page1, true); (page2, false)]) home.

(** A feed with a "Load More" button: no infinite scroll, and a trending
    query that holds one page and has more. *)
Definition paged_props : Props :=
  {| initialTab := "trending"; searchQuery := ""; selectedTags := [];
     selectedType := None; infiniteScroll := false; itemsPerRow := 4;
     showSidecards := false; defaultViewMode := grid;
     onViewModeChange := false |}.

Definition paged_feed : Instance :=
  fresh paged_props viewer (fun _ => false)
    (fun _ => {| items := page_items page1; pq_isLoading := false;
                 pq_error := None; pq_hasMore := true;
                 pq_isLoadingMore := false |}).

Definition trending_tab : TabOption :=
  {| tab_key := "trending"; label := "Trending"; requiredAuth := false |}.

End FeedScenario.

Module ProfileScenario.
Import ProfileSettingsPage.

Definition member : option PageSession :=
  Some {| session_user :=
            Some {| user_id := Some "u1"; user_name := Some "Ada";
                    user_username := Some "ada_l"; user_image := None |} |}.

(** A session whose user has no id. *)
Definition nameless : option PageSession :=
  Some {| session_user :=
            Some {| user_id := None; user_name := Some "Ada";
                    user_username := Some "ada_l"; user_image := None |} |}.

Definition photo : File :=
  {| file_name := "me.png"; file_dataURL := "data:image/png;base64,AAAA" |}.

(** Every collaborator fails. *)
Definition api_down : Backend :=
  {| getProfile := fun _ => Rejects OtherError;
     startProfileUpload := fun _ => Rejects OtherError;
     startBannerUpload := fun _ => Rejects OtherError;
     updateProfile := fun _ => Rejects (ApiError "Username already taken");
     update := Some (Rejects OtherError) |}.

(** Every collaborator answers; the profile API knows the user under an
    empty name, and an upload comes back without a file. *)
Definition api_up : Backend :=
  {| getProfile :=
       fun _ => Fulfilled
                  {| data_name := Some ""; data_username := Some "ada_l";
                     data_bio := Some "Pixels."; data_location := None;
                     data_social := None; data_bannerImage := None |};
     startProfileUpload := fun _ => Fulfilled (Some []);
     startBannerUpload := fun _ => Fulfilled None;
     updateProfile :=
       fun d => Fulfilled
                  {| updated_name := Some (name (values d));
                     updated_username := Some (username (values d));
                     updated_image := image d |};
     update := Some (Fulfilled tt) |}.

Definition typed : ProfileFormValues :=
  {| name := "Ada"; username := "a!"; bio := Some ""; location := Some "";
     website := Some ""; twitter := Some ""; github := Some "";
     linkedin := Some "" |}.

End ProfileScenario.

(** * Properties of FollowButton *)

Section FollowButtonProperties.
Import FollowButton.

Lemma emit_isFollowing (e : Effect) (c : Instance) :
  isFollowing (emit e c) = isFollowing c.
Proof. reflexivity. Qed.

Lemma call_onFollowChange_isFollowing (provided v : bool) (c : Instance) :
  isFollowing (call_onFollowChange provided v c) = isFollowing c.
Proof. destruct provided; reflexivity. Qed.

(** When the mutation started by [handleFollow] is rejected, the local state
    becomes the [isFollowing] prop of the render in which the handler was
    created. *)
Lemma rejected_sets_prop (c : Instance) (s : Session) (e : Thrown) :
  session c = Some s ->
  isFollowing (settle (Rejected e) (handleFollow c))
  = initialIsFollowing (props c).
Proof.
  intros Hs. unfold handleFollow. rewrite Hs.
  destruct (isFollowing c);
    unfold settle, seq, suspend; cbn [inflight];
    unfold handleFollow_catch, seq;
    rewrite emit_isFollowing, call_onFollowChange_isFollowing;
    reflexivity.
Qed.

(** So the rollback restores the value shown before the click exactly when
    that value was the prop. *)
Lemma rejected_restores_iff (c : Instance) (s : Session) (e : Thrown) :
  session c = Some s ->
  isFollowing (settle (Rejected e) (handleFollow c)) = isFollowing c
  <-> isFollowing c = initialIsFollowing (props c).
Proof.
  intros Hs. rewrite (rejected_sets_prop c s e Hs).
  split; intros H; symmetry; exact H.
Qed.

(** C1, at a failing input.  The viewer follows a user (prop
    [isFollowing = false], mutation succeeds, the parent leaves the prop
    alone) and then clicks again; the button shows "Following" before that
    second click and flips to "Follow" with it.  When the unfollow mutation
    is rejected, the error is shown, but the state is set to the prop,
    [false], and not to the value held before the flip, [true]: the button
    goes on showing "Follow". *)
Theorem C1_failed_unfollow_after_follow :
  isFollowing FollowScenario.followed = true
  /\ initialIsFollowing (props FollowScenario.followed) = false
  /\ isFollowing FollowScenario.unfollowing = false
  /\ inflight FollowScenario.unfollowing <> None
  /\ isFollowing FollowScenario.unfollow_failed = false
  /\ new_effects FollowScenario.unfollowing FollowScenario.unfollow_failed
     = [console_error (ErrorObject "Network error");
        toast_error "Network error"].
Proof.
  repeat split; try reflexivity.
  discriminate.
Qed.

(** C3 as the specification states it fails: while the unfollow mutation is
    in flight the button shows the optimistic "Follow"; a render with the new
    baseline [isFollowing = true] overwrites it with "Following", and the
    mutation is still in flight. *)
Lemma C3_pending_state_overwritten :
  inflight FollowScenario.unfollowing <> None
  /\ isFollowing FollowScenario.unfollowing = false
  /\ isFollowing (receiveProps FollowScenario.card_refetched FollowScenario.unfollowing)
     = true
  /\ inflight (receiveProps FollowScenario.card_refetched FollowScenario.unfollowing)
     = inflight FollowScenario.unfollowing.
Proof.
  repeat split; try reflexivity.
  discriminate.
Qed.

(** C3, amended.  When the caller supplies a new [isFollowing] baseline, the
    local state is set to the new baseline, whether a mutation is in flight
    or not; the mutation in flight, if any, stays in flight. *)
Theorem C3_baseline_resync (c : Instance) (p : Props) :
  initialIsFollowing p <> initialIsFollowing (props c) ->
  isFollowing (receiveProps p c) = initialIsFollowing p
  /\ inflight (receiveProps p c) = inflight c
  /\ effects (receiveProps p c) = effects c.
Proof.
  intros Hne. unfold receiveProps.
  destruct (Bool.eqb_spec (initialIsFollowing p) (initialIsFollowing (props c)))
    as [Heq | _]; [contradiction | ].
  cbn. repeat split.
Qed.

Lemma C3_baseline_resync_witness :
  inflight FollowScenario.unfollowing <> None
  /\ isFollowing (receiveProps FollowScenario.card_refetched FollowScenario.unfollowing)
     = true.
Proof.
  split; [discriminate | ].
  apply (C3_baseline_resync FollowScenario.unfollowing FollowScenario.card_refetched).
  discriminate.
Defined.

(** C4.  When the target user is the signed-in user, the component renders
    nothing; there is no control to click, so a click changes nothing and no
    follow or unfollow mutation can start. *)
Theorem C4_no_control_for_self (c : Instance) (s : Session) (u : User) :
  session c = Some s ->
  user s = Some u ->
  id u = userId (props c) ->
  render c = None /\ click c = c.
Proof.
  intros Hs Hu Hid.
  assert (Hself : isCurrentUser c = true).
  { unfold isCurrentUser. rewrite Hs, Hu, Hid. apply String.eqb_refl. }
  unfold click, render. rewrite Hself. split; reflexivity.
Qed.

Lemma C4_no_control_for_self_witness :
  render (mount FollowScenario.own_card FollowScenario.viewer) = None
  /\ click (mount FollowScenario.own_card FollowScenario.viewer)
     = mount FollowScenario.own_card FollowScenario.viewer.
Proof.
  apply (C4_no_control_for_self (mount FollowScenario.own_card FollowScenario.viewer)
           {| user := Some {| id := "u1" |} |} {| id := "u1" |});
    reflexivity.
Defined.

(** C5.  Without a session, [handleFollow] calls neither mutation, shows
    the "Please sign in to follow users" toast and sends the router to
    "/login", and leaves [isFollowing] as it was. *)
Theorem C5_signed_out_follow (c : Instance) :
  session c = None ->
  isFollowing (handleFollow c) = isFollowing c
  /\ inflight (handleFollow c) = inflight c
  /\ effects (handleFollow c)
     = (effects c ++ [toast_error "Please sign in to follow users";
                      router_push "/login"])%list
  /\ mutation_calls (handleFollow c) = mutation_calls c.
Proof.
  intros Hs. unfold handleFollow. rewrite Hs.
  unfold seq, emit, mutation_calls; cbn.
  repeat split.
  - rewrite <- app_assoc. reflexivity.
  - rewrite !filter_app. cbn. rewrite !app_nil_r. reflexivity.
Qed.

Lemma C5_signed_out_follow_witness :
  isFollowing (handleFollow (mount FollowScenario.card None)) = false
  /\ inflight (handleFollow (mount FollowScenario.card None)) = None
  /\ effects (handleFollow (mount FollowScenario.card None))
     = [toast_error "Please sign in to follow users"; router_push "/login"]
  /\ mutation_calls (handleFollow (mount FollowScenario.card None)) = 0.
Proof.
  apply (C5_signed_out_follow (mount FollowScenario.card None)).
  reflexivity.
Defined.

End FollowButtonProperties.

(** * Properties of DashboardFeed *)

Section DashboardFeedProperties.
Import DashboardFeed.

(** ** View mode *)

(** C2 as the specification states it fails.  The home feed is configured
    with three items per row and sidecards.  Switching to the list sets one
    item per row and shows the sidecards; switching back to the grid hides
    them and sets four items per row, not the three that were configured. *)
Lemma C2_grid_does_not_restore_configured :
  itemsPerRow (props FeedScenario.home) = 3%Z
  /\ currentItemsPerRow FeedScenario.home = 3%Z
  /\ currentItemsPerRow (handleViewModeChange list_view FeedScenario.home)
     = 1%Z
  /\ currentItemsPerRow
       (handleViewModeChange grid
          (handleViewModeChange list_view FeedScenario.home))
     = 4%Z
  /\ currentItemsPerRow
       (handleViewModeChange grid
          (handleViewModeChange list_view FeedScenario.home))
     <> itemsPerRow (props FeedScenario.home).
Proof.
  repeat split; try reflexivity.
  cbv. discriminate.
Qed.

(** C2, amended.  A switch of the view mode always sets [viewMode].  In a
    feed with sidecards, switching to the list sets one item per row and
    shows the sidecards, and switching to the grid sets four items per row,
    whatever [itemsPerRow] was configured, and hides the sidecards.  In a
    feed without sidecards nothing but [viewMode] changes. *)
Theorem C2_view_mode_coupling (w : Instance) (mode : ViewMode) :
  viewMode (handleViewModeChange mode w) = mode
  /\ if showSidecards (props w) then
       currentItemsPerRow (handleViewModeChange mode w)
       = (if is_list mode then 1 else 4)%Z
       /\ showCurrentSidecards (handleViewModeChange mode w) = is_list mode
     else
       currentItemsPerRow (handleViewModeChange mode w) = currentItemsPerRow w
       /\ showCurrentSidecards (handleViewModeChange mode w)
          = showCurrentSidecards w.
Proof.
  unfold handleViewModeChange, seq.
  destruct (showSidecards (props w)), (onViewModeChange (props w)), mode;
    cbn; repeat split.
Qed.

(** ** Filters *)

Lemma tab_id_injective (s s' : FeedSource) : tab_id s = tab_id s' -> s = s'.
Proof. destruct s, s'; cbn; intros H; try reflexivity; discriminate H. Qed.

Lemma first_tag (b : bool) (tags : list string) :
  (if b && (0 <? length tags)%nat then nth_error tags 0 else undefined)
  = if b then hd_error tags else None.
Proof. destruct b, tags; reflexivity. Qed.

(** The filters of the eight queries, by tab. *)
Lemma filters_by_tab (limit : nat) (w : Instance) (s : FeedSource) :
  filters (infiniteOptions limit s w) = filters (pagedOptions limit s w)
  /\ filters (infiniteOptions limit s w)
     = if activeTab w === tab_id s then
         (Some (searchQuery (props w)),
          hd_error (selectedTags (props w)),
          match s with
          | creators => None
          | _ => orUndefined (selectedType (props w))
          end)
       else (None, None, None).
Proof.
  split.
  - destruct s; reflexivity.
  - destruct s; unfold filters, infiniteOptions;
      cbn [search tag type tab_id]; rewrite first_tag;
      destruct (activeTab w =? _)%string; reflexivity.
Qed.

(** C9 as the specification states it fails.  On the creators tab of the
    explore feed, with the type "sprite" selected, the creators queries get
    the search text and the first tag, but no type: the calls of the creators
    hooks pass none. *)
Lemma C9_creators_type_not_forwarded :
  activeTab FeedScenario.explore = tab_id creators
  /\ selectedType (props FeedScenario.explore) = Some "sprite"
  /\ search (infiniteOptions 20 creators FeedScenario.explore) = Some "pixel"
  /\ tag (infiniteOptions 20 creators FeedScenario.explore) = Some "2d"
  /\ type (infiniteOptions 20 creators FeedScenario.explore) = None
  /\ type (pagedOptions 20 creators FeedScenario.explore) = None.
Proof. repeat split. Qed.

(** C9, amended.  Each of the eight queries (four sources, infinite and
    paged) gets [undefined] for search, tag and type unless its source's tab
    is the active one.  The queries of the active source get the search text
    and the first of the selected tags, if there is one; those of trending,
    following and assets also get the selected type when it is a non-empty
    string ([null] and the empty string are passed as [undefined]), and those
    of creators get no type. *)
Theorem C9_filters_forwarded (limit : nat) (w : Instance) (s : FeedSource) :
  (search (infiniteOptions limit s w), tag (infiniteOptions limit s w),
   type (infiniteOptions limit s w))
  = (if activeTab w === tab_id s then
       (Some (searchQuery (props w)),
        hd_error (selectedTags (props w)),
        match s, selectedType (props w) with
        | creators, _ => None
        | _, Some t => if t === "" then None else Some t
        | _, None => None
        end)
     else (None, None, None))
  /\ (search (pagedOptions limit s w), tag (pagedOptions limit s w),
      type (pagedOptions limit s w))
     = (if activeTab w === tab_id s then
          (Some (searchQuery (props w)),
           hd_error (selectedTags (props w)),
           match s, selectedType (props w) with
           | creators, _ => None
           | _, Some t => if t === "" then None else Some t
           | _, None => None
           end)
        else (None, None, None)).
Proof.
  destruct (filters_by_tab limit w s) as [Hsame Hinf].
  assert (Htype : forall v,
             orUndefined v
             = match v with
               | Some t => if t === "" then None else Some t
               | None => None
               end).
  { intros [t | ]; reflexivity. }
  unfold filters in Hsame, Hinf. rewrite <- Hsame, Hinf.
  destruct (activeTab w === tab_id s); [ | split; reflexivity].
  destruct s; rewrite ?Htype; split; reflexivity.
Qed.

(** ** Flattened pages *)

Lemma pages_fold (ps : list (Page * bool)) (q : InfiniteQuery) :
  pages (fold_left (fun q p => hook_pageArrives (fst p) (snd p) q) ps q)
  = match ps with
    | [] => pages q
    | _ :: _ =>
        Some (match pages q with Some l => l | None => [] end
              ++ map fst ps)%list
    end.
Proof.
  revert q. induction ps as [| p ps IH]; intros q; [reflexivity | ].
  cbn [fold_left]. rewrite IH.
  destruct ps as [| p' ps]; cbn [pages hook_pageArrives map].
  - destruct (pages q); reflexivity.
  - destruct (pages q); cbn [app]; [rewrite <- app_assoc | ]; reflexivity.
Qed.

Lemma flatMap_pages (ps : list Page) :
  flatMap (fun page => page_items page) ps = concat (map page_items ps).
Proof. unfold flatMap. apply flat_map_concat_map. Qed.

Lemma ids_concat (ps : list (list Item)) :
  ids (concat ps) = concat (map ids ps).
Proof. unfold ids. apply concat_map. Qed.

Lemma cursor_contract_NoDup (ps : list (list Item)) :
  cursor_contract ps -> NoDup (ids (concat ps)).
Proof.
  intros [Hpage Hlater]. rewrite ids_concat. apply NoDup_concat.
  - apply Forall_map. exact Hpage.
  - clear Hpage. induction Hlater as [| page l Hhd _ IH]; cbn [map].
    + constructor.
    + constructor; [ | exact IH].
      apply Forall_map. exact Hhd.
Qed.

(** C8.  After the pages [ps] of a source were fetched one after the other,
    the flattened list of the source is the concatenation of the pages' item
    lists in fetch order; and when the backend honours its cursor contract it
    holds no identity twice. *)
Theorem C8_flattened_pages
    (w : Instance) (s : FeedSource) (ps : list (Page * bool)) :
  infinite w s = after_pages ps ->
  infiniteItems s w = concat (map page_items (map fst ps))
  /\ data (infiniteTabData s w) = concat (map page_items (map fst ps))
  /\ (cursor_contract (map page_items (map fst ps)) ->
      NoDup (ids (infiniteItems s w))).
Proof.
  intros Hq.
  assert (Hflat : infiniteItems s w = concat (map page_items (map fst ps))).
  { unfold infiniteItems. rewrite Hq. unfold after_pages.
    rewrite pages_fold. destruct ps as [| p ps]; [reflexivity | ].
    cbn [pages idle_query app]. apply flatMap_pages. }
  split; [exact Hflat | ]. split; [exact Hflat | ].
  intros Hc. rewrite Hflat. apply cursor_contract_NoDup. exact Hc.
Qed.

Lemma C8_flattened_pages_witness :
  infiniteItems trending FeedScenario.home_two_pages
  = [ {| item_id := "a1" |}; {| item_id := "a2" |}; {| item_id := "a3" |} ]
  /\ NoDup (ids (infiniteItems trending FeedScenario.home_two_pages)).
Proof.
  destruct (C8_flattened_pages FeedScenario.home_two_pages trending
              [(FeedScenario.page1, true); (FeedScenario.page2, false)]
              eq_refl) as (Hflat & _ & Hnodup).
  split; [exact Hflat | ].
  apply Hnodup. split.
  - repeat constructor; cbn; intuition discriminate.
  - constructor; [ | constructor; constructor].
    constructor; [ | constructor].
    cbn. intros a Ha Hb. intuition congruence.
Defined.

(** ** Fetching the next page *)

Lemma new_calls_emit (f : Call) (w : Instance) :
  new_calls w (emit f w) = [f].
Proof.
  unfold new_calls, emit; cbn [calls].
  rewrite skipn_app, skipn_all, Nat.sub_diag. reflexivity.
Qed.

Lemma new_calls_none (w : Instance) : new_calls w w = [].
Proof. unfold new_calls. apply skipn_all. Qed.

Lemma fetchNext_injective (s s' : FeedSource) :
  fetchNext s = fetchNext s' -> s = s'.
Proof. destruct s, s'; cbn; intros H; try reflexivity; discriminate H. Qed.

(** What [fetchMoreForCurrentTab] does: it asks the next page of the active
    tab's source when that source has one and is not fetching it, and does
    nothing otherwise. *)
Lemma fetchMoreForCurrentTab_cases (w : Instance) :
  (exists s,
      activeTab w = tab_id s
      /\ hasNextPage (infinite w s) = true
      /\ isFetchingNextPage (infinite w s) = false
      /\ fetchMoreForCurrentTab w = (Returns tt, emit (fetchNext s) w))
  \/ fetchMoreForCurrentTab w = (Returns tt, w).
Proof.
  unfold fetchMoreForCurrentTab, switch. cbn [from_case from_default].
  destruct (String.eqb_spec (activeTab w) "trending") as [Ht | _];
    [ | destruct (String.eqb_spec (activeTab w) "following") as [Hf | _];
        [ | destruct (String.eqb_spec (activeTab w) "assets") as [Ha | _];
            [ | destruct (String.eqb_spec (activeTab w) "creators")
                  as [Hc | _] ] ] ].
  1: destruct (hasNextPage (infinite w trending)) eqn:Hn,
       (isFetchingNextPage (infinite w trending)) eqn:Hg.
  5: destruct (hasNextPage (infinite w following)) eqn:Hn,
       (isFetchingNextPage (infinite w following)) eqn:Hg.
  9: destruct (hasNextPage (infinite w assets)) eqn:Hn,
       (isFetchingNextPage (infinite w assets)) eqn:Hg.
  13: destruct (hasNextPage (infinite w creators)) eqn:Hn,
        (isFetchingNextPage (infinite w creators)) eqn:Hg.
  all: cbn; try (right; reflexivity).
  - left; exists trending; repeat split; assumption.
  - left; exists following; repeat split; assumption.
  - left; exists assets; repeat split; assumption.
  - left; exists creators; repeat split; assumption.
Qed.

Lemma fetchNextPage_cases (w : Instance) :
  (exists s,
      activeTab w = tab_id s
      /\ hasNextPage (infinite w s) = true
      /\ isFetchingNextPage (infinite w s) = false
      /\ fetchNextPage w = (Returns tt, emit (fetchNext s) w))
  \/ fetchNextPage w = (Returns tt, w).
Proof.
  unfold fetchNextPage.
  destruct (hasMore (getTabData w) && negb (isLoadingMore (getTabData w)));
    [apply fetchMoreForCurrentTab_cases | right; reflexivity].
Qed.

(** The flags of [getTabData] are those of the active tab's source. *)
Lemma getTabData_active (w : Instance) (s : FeedSource) :
  activeTab w = tab_id s ->
  getTabData w
  = if infiniteScroll (props w) then infiniteTabData s w
    else pagedTabData s w.
Proof.
  intros Htab. unfold getTabData. rewrite Htab.
  destruct (infiniteScroll (props w)), s; reflexivity.
Qed.

(** The flags the component shows guard the trigger as well. *)
Lemma fetchNextPage_shown_flags (w : Instance) :
  isLoadingMore (getTabData w) = true \/ hasMore (getTabData w) = false ->
  fetchNextPage w = (Returns tt, w).
Proof.
  intros [H | H]; unfold fetchNextPage; rewrite H;
    [rewrite andb_false_r | ]; reflexivity.
Qed.

Lemma fetchNextPage_guard (w : Instance) (s : FeedSource) :
  isFetchingNextPage (infinite w s) = true
  \/ hasNextPage (infinite w s) = false ->
  ~ In (fetchNext s) (new_calls w (snd (fetchNextPage w)))
  /\ (activeTab w = tab_id s -> fetchNextPage w = (Returns tt, w)).
Proof.
  intros Hbusy.
  destruct (fetchNextPage_cases w) as [(s0 & Htab & Hn & Hg & Hrun) | Hrun];
    rewrite Hrun; cbn [snd].
  - split.
    + rewrite new_calls_emit. intros [Heq | []].
      apply fetchNext_injective in Heq. subst s0.
      destruct Hbusy as [H | H]; congruence.
    + intros Hs. rewrite Htab in Hs. apply tab_id_injective in Hs. subst s0.
      destruct Hbusy as [H | H]; congruence.
  - rewrite new_calls_none. split; [intros [] | reflexivity].
Qed.

(** ** Statements that leave the hook results alone *)

Lemma frame_ret {A : Type} (a : A) : frame (ret a).
Proof. intros w. reflexivity. Qed.

Lemma frame_bind {A B : Type} (c : M A) (k : A -> M B) :
  frame c -> (forall a, frame (k a)) -> frame (bind c k).
Proof.
  intros Hc Hk w. unfold bind. specialize (Hc w).
  destruct (c w) as [[a | e] w']; cbn [snd] in *.
  - rewrite Hk. exact Hc.
  - exact Hc.
Qed.

Lemma frame_stmt (f : Instance -> Instance) :
  (forall w, infinite (f w) = infinite w) -> frame (stmt f).
Proof. intros Hf w. apply Hf. Qed.

Lemma frame_try_finally {A : Type} (c : M A) (h : Instance -> Instance) :
  frame c -> (forall w, infinite (h w) = infinite w) ->
  frame (try_finally c h).
Proof.
  intros Hc Hh w. unfold try_finally. specialize (Hc w).
  destruct (c w) as [r w']; cbn [snd] in *. rewrite Hh. exact Hc.
Qed.

Lemma frame_run_clauses (cs : list Clause) :
  Forall (fun c => frame (snd c)) cs -> frame (run_clauses cs).
Proof.
  induction 1 as [| [l body] cs Hbody _ IH]; cbn [run_clauses].
  - apply frame_ret.
  - apply frame_bind; [exact Hbody | ].
    intros [ | ]; [apply frame_ret | exact IH].
Qed.

Lemma from_case_suffix (v : string) (cs cs' : list Clause) :
  from_case v cs = Some cs' -> exists pre, cs = (pre ++ cs')%list.
Proof.
  induction cs as [| [[l | ] body] cs IH]; cbn [from_case]; intros H.
  - discriminate H.
  - destruct (v =? l)%string.
    + injection H as <-. exists []. reflexivity.
    + destruct (IH H) as [pre ->]. exists ((case l, body) :: pre).
      reflexivity.
  - destruct (IH H) as [pre ->]. exists ((default, body) :: pre).
    reflexivity.
Qed.

Lemma from_default_suffix (cs cs' : list Clause) :
  from_default cs = Some cs' -> exists pre, cs = (pre ++ cs')%list.
Proof.
  induction cs as [| [[l | ] body] cs IH]; cbn [from_default]; intros H.
  - discriminate H.
  - destruct (IH H) as [pre ->]. exists ((case l, body) :: pre).
    reflexivity.
  - injection H as <-. exists []. reflexivity.
Qed.

Lemma frame_switch (v : string) (cs : list Clause) :
  Forall (fun c => frame (snd c)) cs -> frame (switch v cs).
Proof.
  intros Hcs. unfold switch.
  destruct (from_case v cs) as [cs' | ] eqn:Hcase.
  - apply from_case_suffix in Hcase as [pre ->].
    apply frame_run_clauses. apply Forall_app in Hcs. apply Hcs.
  - destruct (from_default cs) as [cs' | ] eqn:Hdef.
    + apply from_default_suffix in Hdef as [pre ->].
      apply frame_run_clauses. apply Forall_app in Hcs. apply Hcs.
    + apply frame_ret.
Qed.

Lemma fold_reset (l : list nat) (w : Instance) :
  infinite (fold_left (fun w' _ => setIsRefreshing false w') l w) = infinite w
  /\ now (fold_left (fun w' _ => setIsRefreshing false w') l w) = now w
  /\ isRefreshing (fold_left (fun w' _ => setIsRefreshing false w') l w)
     = match l with [] => isRefreshing w | _ :: _ => false end.
Proof.
  revert w. induction l as [| x l IH]; intros w; cbn [fold_left].
  - repeat split.
  - destruct (IH (setIsRefreshing false w)) as (Hi & Hn & Hr).
    rewrite Hi, Hn, Hr. repeat split. destruct l; reflexivity.
Qed.

Lemma elapse_infinite (d : nat) (w : Instance) :
  infinite (elapse d w) = infinite w.
Proof. unfold elapse. rewrite (proj1 (fold_reset _ _)). reflexivity. Qed.

Lemma frame_await (b : Backend) (f : Call) : frame (await b f).
Proof.
  intros w. unfold await.
  destruct (fst (b f)); cbn [snd]; rewrite elapse_infinite; reflexivity.
Qed.

Lemma frame_refreshFeed (b : Backend) : frame (refreshFeed b).
Proof.
  intros w. unfold refreshFeed.
  apply frame_bind; [apply frame_stmt; reflexivity | intros _].
  apply frame_try_finally; [ | reflexivity].
  apply frame_switch.
  repeat constructor; cbn [snd];
    (apply frame_bind; [ | intros _; apply frame_ret]);
    destruct (infiniteScroll (props w)); apply frame_await.
Qed.

(** ** One next-page request at a time *)

Lemma FeedSource_eqb_spec (a b : FeedSource) :
  reflect (a = b) (FeedSource_eqb a b).
Proof. destruct a, b; constructor; congruence. Qed.

Lemma infinite_update (s s' : FeedSource)
    (f : InfiniteQuery -> InfiniteQuery) (w : Instance) :
  infinite (update s f w) s'
  = if FeedSource_eqb s s' then f (infinite w s') else infinite w s'.
Proof. reflexivity. Qed.

Lemma next_page_of_fetchNext (s : FeedSource) :
  next_page_of (fetchNext s) = Some s.
Proof. destruct s; reflexivity. Qed.

Lemma one_at_a_time_request (g : bool) (q : InfiniteQuery) :
  one_at_a_time q ->
  hasNextPage q = true -> isFetchingNextPage q = false ->
  one_at_a_time (hook_fetchNextPage g q).
Proof.
  intros [[Hr Hf] | [Hr Hf]] Hn Hg; [ | congruence].
  unfold hook_fetchNextPage. rewrite Hn, Hg, andb_false_r.
  right. cbn. split; congruence.
Qed.

Lemma one_at_a_time_response (q q' : InfiniteQuery) :
  one_at_a_time q -> in_flight q = true ->
  requested q' = requested q -> settled q' = S (settled q) ->
  isFetchingNextPage q' = false ->
  one_at_a_time q'.
Proof.
  unfold in_flight. intros [[Hr Hf] | [Hr Hf]] Hin Hr' Hs' Hf'.
  - apply Nat.ltb_lt in Hin. lia.
  - left. split; [lia | exact Hf'].
Qed.

Lemma step_one_at_a_time (g : bool) (w : Instance) (i : Input) :
  (forall s, one_at_a_time (infinite w s)) ->
  forall s, one_at_a_time (infinite (step g w i) s).
Proof.
  intros Hw s. destruct i as [ | s0 page more | s0 e | tab | mode | b | d];
    cbn [step].
  - destruct (fetchNextPage_cases w) as [(s0 & _ & Hn & Hg & Hrun) | Hrun];
      rewrite Hrun; cbn [snd].
    + rewrite new_calls_emit. cbn [deliver fold_left].
      rewrite next_page_of_fetchNext, infinite_update.
      destruct (FeedSource_eqb_spec s0 s) as [<- | _]; [ | apply Hw].
      apply one_at_a_time_request; [apply Hw | exact Hn | exact Hg].
    + rewrite new_calls_none. apply Hw.
  - destruct (in_flight (infinite w s0)) eqn:Hin; [ | apply Hw].
    rewrite infinite_update.
    destruct (FeedSource_eqb_spec s0 s) as [<- | _]; [ | apply Hw].
    apply (one_at_a_time_response (infinite w s0));
      [apply Hw | exact Hin | reflexivity ..].
  - destruct (in_flight (infinite w s0)) eqn:Hin; [ | apply Hw].
    rewrite infinite_update.
    destruct (FeedSource_eqb_spec s0 s) as [<- | _]; [ | apply Hw].
    apply (one_at_a_time_response (infinite w s0));
      [apply Hw | exact Hin | reflexivity ..].
  - apply Hw.
  - unfold handleViewModeChange, seq.
    destruct (showSidecards (props w)), (is_list mode),
      (onViewModeChange (props w)); apply Hw.
  - rewrite frame_refreshFeed. apply Hw.
  - rewrite elapse_infinite. apply Hw.
Qed.

Lemma run_one_at_a_time (g : bool) (inputs : list Input) (w : Instance) :
  (forall s, one_at_a_time (infinite w s)) ->
  forall s, one_at_a_time (infinite (run g w inputs) s).
Proof.
  revert w. induction inputs as [| i inputs IH]; intros w Hw.
  - exact Hw.
  - cbn [run fold_left]. apply IH. apply step_one_at_a_time. exact Hw.
Qed.

Lemma fresh_one_at_a_time (p : Props) (sess : option Session)
    (flags : FeedSource -> bool) (pg : FeedSource -> PagedQuery)
    (s : FeedSource) :
  one_at_a_time (infinite (fresh p sess flags pg) s).
Proof.
  unfold fresh, mount, initViewMode, seq. cbn [props initial].
  destruct (is_list (defaultViewMode p) && showSidecards p);
    [ | destruct (is_grid (defaultViewMode p) && negb (showSidecards p))];
    left; split; reflexivity.
Qed.

(** C6.  Whenever a source is fetching its next page or has no next page,
    the trigger [fetchNextPage] asks no page of that source, and does nothing
    at all when that source's tab is the active one; the same holds for the
    flags of the active tab that the component shows.  Hence, in every state
    a feed reaches, each source has no next-page request in flight, or
    exactly one, issued after every earlier one was answered. *)
Theorem C6_next_page_requests_guarded :
  (forall (w : Instance) (s : FeedSource),
      isFetchingNextPage (infinite w s) = true
      \/ hasNextPage (infinite w s) = false ->
      ~ In (fetchNext s) (new_calls w (snd (fetchNextPage w)))
      /\ (activeTab w = tab_id s -> fetchNextPage w = (Returns tt, w)))
  /\ (forall w : Instance,
         isLoadingMore (getTabData w) = true
         \/ hasMore (getTabData w) = false ->
         fetchNextPage w = (Returns tt, w))
  /\ (forall (own_guard : bool) (p : Props) (sess : option Session)
             (flags : FeedSource -> bool) (pg : FeedSource -> PagedQuery)
             (inputs : list Input) (s : FeedSource),
         one_at_a_time
           (infinite (run own_guard (fresh p sess flags pg) inputs) s)).
Proof.
  split; [exact fetchNextPage_guard | ].
  split; [exact fetchNextPage_shown_flags | ].
  intros g p sess flags pg inputs s.
  apply run_one_at_a_time. apply fresh_one_at_a_time.
Qed.

Lemma C6_next_page_requests_guarded_witness :
  isFetchingNextPage (infinite FeedScenario.home_fetching trending) = true
  /\ requested (infinite FeedScenario.home_fetching trending) = 1
  /\ fetchNextPage FeedScenario.home_fetching
     = (Returns tt, FeedScenario.home_fetching)
  /\ one_at_a_time
       (infinite
          (run false FeedScenario.home
             [Intersect; Intersect; PageArrives trending FeedScenario.page1 true;
              Intersect; Intersect])
          trending).
Proof.
  split; [reflexivity | ]. split; [reflexivity | ]. split.
  - apply (proj1 C6_next_page_requests_guarded FeedScenario.home_fetching
             trending); [left; reflexivity | reflexivity].
  - apply (proj2 (proj2 C6_next_page_requests_guarded)).
Defined.

(** ** Refresh *)

Lemma new_calls_app (w w' : Instance) (l : list Call) :
  calls w' = (calls w ++ l)%list -> new_calls w w' = l.
Proof.
  intros H. unfold new_calls. rewrite H.
  rewrite skipn_app, skipn_all, Nat.sub_diag. reflexivity.
Qed.

Lemma fold_reset_calls (l : list nat) (w : Instance) :
  calls (fold_left (fun w' _ => setIsRefreshing false w') l w) = calls w.
Proof.
  revert w. induction l as [| x l IH]; intros w; cbn [fold_left];
    [reflexivity | rewrite IH; reflexivity].
Qed.

Lemma elapse_calls (d : nat) (w : Instance) : calls (elapse d w) = calls w.
Proof. unfold elapse. rewrite fold_reset_calls. reflexivity. Qed.

(** C7.  On the creators tab [refreshFeed] reloads the creators query and,
    once that reload has come back, goes on into the [default] clause and
    reloads the trending query too (the infinite ones with infinite scroll,
    the paged ones without). *)
Theorem C7_creators_refresh_falls_through (b : Backend) (w : Instance) :
  activeTab w = "creators" ->
  fst (b (if infiniteScroll (props w) then reloadCreatorsInfinite
          else reloadCreators)) = Resolved ->
  new_calls w (snd (refreshFeed b w))
  = if infiniteScroll (props w)
    then [reloadCreatorsInfinite; reloadTrendingInfinite]
    else [reloadCreators; reloadTrending].
Proof.
  intros Htab Hok. apply new_calls_app.
  unfold refreshFeed. rewrite Htab. cbn [switch from_case String.eqb
    Ascii.eqb Bool.eqb].
  unfold bind, stmt, try_finally; cbn [run_clauses].
  destruct (infiniteScroll (props w)); unfold bind, await, ret;
    rewrite Hok; cbn [fst snd];
    match goal with
    | |- context [fst (b ?f)] => destruct (fst (b f))
    end; cbn [snd setTimeout_setIsRefreshing_false setClock calls];
    rewrite !elapse_calls; cbn [emit calls];
    rewrite !elapse_calls; cbn [emit calls setIsRefreshing];
    rewrite <- app_assoc; reflexivity.
Qed.

Lemma C7_creators_refresh_falls_through_witness :
  new_calls FeedScenario.explore
    (snd (refreshFeed FeedScenario.reloads_succeed FeedScenario.explore))
  = [reloadCreatorsInfinite; reloadTrendingInfinite].
Proof.
  apply (C7_creators_refresh_falls_through FeedScenario.reloads_succeed
           FeedScenario.explore); reflexivity.
Defined.

(** On the three other tabs, and on an unknown tab, one query is reloaded. *)
Lemma refreshFeed_other_tabs (b : Backend) (w : Instance) :
  activeTab w <> "creators" ->
  exists f, new_calls w (snd (refreshFeed b w)) = [f].
Proof.
  intros Htab.
  unfold refreshFeed, switch. cbn [from_case from_default].
  destruct (String.eqb_spec (activeTab w) "trending") as [Ht | _];
    [ | destruct (String.eqb_spec (activeTab w) "following") as [Hf | _];
        [ | destruct (String.eqb_spec (activeTab w) "assets") as [Ha | _];
            [ | destruct (String.eqb_spec (activeTab w) "creators")
                  as [Hc | _]; [contradiction | ] ] ] ].
  all: destruct (infiniteScroll (props w)); eexists; apply new_calls_app;
    unfold bind, stmt, try_finally, await, ret; cbn [run_clauses];
    unfold bind, await, ret;
    match goal with
    | |- context [fst (?g ?f)] => destruct (fst (g f))
    end; cbn; rewrite fold_reset_calls; reflexivity.
Qed.

(** [refreshFeed] ends in its [finally] block, whatever happened before. *)
Lemma refreshFeed_ends_in_finally (b : Backend) (w : Instance) :
  exists w', snd (refreshFeed b w) = setTimeout_setIsRefreshing_false 500 w'.
Proof.
  unfold refreshFeed, bind, stmt, try_finally.
  match goal with
  | |- context [switch ?v ?cs ?w0] => destruct (switch v cs w0) as [r w']
  end.
  exists w'. reflexivity.
Qed.

(** A timer that is due resets the flag. *)
Lemma elapse_due (d x : nat) (w : Instance) :
  In x (timers w) -> x <= now w + d -> isRefreshing (elapse d w) = false.
Proof.
  intros Hin Hle. unfold elapse.
  rewrite (proj2 (proj2 (fold_reset _ _))).
  destruct (filter (fun x0 => (x0 <=? now w + d)%nat) (timers w))
    as [| y l] eqn:Hdue; [ | reflexivity].
  assert (Hx : In x (filter (fun x0 => (x0 <=? now w + d)%nat) (timers w))).
  { apply filter_In. split; [exact Hin | apply Nat.leb_le; exact Hle]. }
  rewrite Hdue in Hx. destruct Hx.
Qed.

(** C10.  Whether its reload comes back or throws, [refreshFeed] leaves a
    timer due 500 ms after it ended, and once those 500 ms (or more) have
    passed [isRefreshing] is false. *)
Theorem C10_refresh_flag_reset (b : Backend) (w : Instance) (d : nat) :
  500 <= d ->
  In (now (snd (refreshFeed b w)) + 500) (timers (snd (refreshFeed b w)))
  /\ isRefreshing (elapse d (snd (refreshFeed b w))) = false.
Proof.
  intros Hd.
  destruct (refreshFeed_ends_in_finally b w) as [w' ->].
  assert (Hin : In (now (setTimeout_setIsRefreshing_false 500 w') + 500)
                  (timers (setTimeout_setIsRefreshing_false 500 w'))).
  { cbn. apply in_or_app. right. left. reflexivity. }
  split; [exact Hin | ].
  apply (elapse_due d _ _ Hin). lia.
Qed.

Lemma C10_refresh_flag_reset_witness :
  fst (refreshFeed FeedScenario.reloads_fail FeedScenario.home)
  = Throws (ErrorObject "Failed to fetch")
  /\ isRefreshing (snd (refreshFeed FeedScenario.reloads_fail FeedScenario.home))
     = true
  /\ isRefreshing
       (elapse 500
          (snd (refreshFeed FeedScenario.reloads_fail FeedScenario.home)))
     = false.
Proof.
  split; [reflexivity | ]. split; [reflexivity | ].
  apply (C10_refresh_flag_reset FeedScenario.reloads_fail FeedScenario.home
           500).
  apply Nat.le_refl.
Defined.

End DashboardFeedProperties.

(** * Further properties of FollowButton *)

Section FollowButtonBehaviour.
Import FollowButton.

Lemma handleFollow_signed_in (c : Instance) (s : Session) :
  session c = Some s ->
  isFollowing (handleFollow c) = negb (isFollowing c)
  /\ inflight (handleFollow c)
     = Some {| k_mutation := if isFollowing c then Unfollow else Follow;
               k_initialIsFollowing := initialIsFollowing (props c);
               k_onFollowChange := onFollowChange (props c) |}
  /\ effects (handleFollow c) = (effects c ++ optimistic_effects c)%list
  /\ props (handleFollow c) = props c
  /\ session (handleFollow c) = session c.
Proof.
  intros Hs. unfold handleFollow, optimistic_effects. rewrite Hs.
  destruct (isFollowing c), (onFollowChange (props c));
    cbn; rewrite <- ?app_assoc; repeat split; assumption.
Qed.

Lemma mutation_calls_app (c c' : Instance) (l : list Effect) :
  effects c' = (effects c ++ l)%list ->
  mutation_calls c' = mutation_calls c + length (filter is_mutation l).
Proof.
  intros H. unfold mutation_calls. rewrite H, filter_app, length_app.
  reflexivity.
Qed.

Lemma optimistic_effects_one_mutation (c : Instance) :
  length (filter is_mutation (optimistic_effects c)) = 1.
Proof.
  unfold optimistic_effects.
  destruct (onFollowChange (props c)), (isFollowing c); reflexivity.
Qed.

Lemma handleFollow_budget (c : Instance) :
  inflight c = None -> budget (handleFollow c) = budget c.
Proof.
  intros Hidle. unfold budget. rewrite Hidle.
  destruct (session c) as [s | ] eqn:Hs.
  - destruct (handleFollow_signed_in c s Hs) as (_ & Hk & He & _).
    rewrite Hk, (mutation_calls_app c _ _ He).
    rewrite optimistic_effects_one_mutation. lia.
  - unfold handleFollow. rewrite Hs. unfold seq. cbn [inflight emit].
    rewrite Hidle.
    erewrite (mutation_calls_app c);
      [ | unfold emit; cbn [effects]; rewrite <- app_assoc; reflexivity].
    cbn. lia.
Qed.

Lemma isLoading_inflight (c : Instance) :
  isLoading c = match inflight c with Some _ => true | None => false end.
Proof.
  unfold isLoading, followMutation_isPending, unfollowMutation_isPending.
  destruct (inflight c) as [k | ]; [destruct (k_mutation k) | ]; reflexivity.
Qed.

Lemma click_budget (c : Instance) : budget (click c) = budget c.
Proof.
  unfold click, render.
  destruct (isCurrentUser c); [reflexivity | ]. cbn [b_disabled].
  rewrite isLoading_inflight.
  destruct (inflight c) eqn:Hk; [reflexivity | ].
  apply handleFollow_budget. exact Hk.
Qed.

Lemma catch_effects (k : Closure) (e : Thrown) (c : Instance) :
  effects (handleFollow_catch k e c)
  = (effects c
     ++ console_error e
        :: (if k_onFollowChange k
            then [onFollowChange_call (k_initialIsFollowing k)] else [])
     ++ [toast_error match e with
                     | ErrorObject message => message
                     | NotAnError => "An error occurred"
                     end])%list.
Proof.
  unfold handleFollow_catch, seq.
  destruct (k_onFollowChange k); cbn; rewrite <- !app_assoc; reflexivity.
Qed.

Lemma catch_inflight (k : Closure) (e : Thrown) (c : Instance) :
  inflight (handleFollow_catch k e c) = inflight c.
Proof.
  unfold handleFollow_catch, seq. destruct (k_onFollowChange k); reflexivity.
Qed.

Lemma settle_budget (r : Settled) (c : Instance) :
  budget (settle r c) <= budget c + 1.
Proof.
  unfold settle. destruct (inflight c) as [k | ] eqn:Hk; [ | lia].
  unfold budget. rewrite Hk.
  destruct r as [ | e].
  - cbn. unfold mutation_calls. cbn. lia.
  - rewrite catch_inflight. cbn [inflight resume].
    erewrite (mutation_calls_app c); [ | rewrite catch_effects; reflexivity].
    destruct (k_onFollowChange k); cbn; lia.
Qed.

Lemma step_budget (c : Instance) (i : Input) :
  budget (step c i) <= budget c + (if is_settle i then 1 else 0).
Proof.
  destruct i as [ | r | p | s]; cbn [step is_settle].
  - rewrite click_budget. lia.
  - apply settle_budget.
  - unfold receiveProps, syncFromProps.
    destruct (negb _); unfold budget, mutation_calls; cbn; lia.
  - unfold budget, mutation_calls; cbn; lia.
Qed.

Lemma run_budget (inputs : list Input) (c : Instance) :
  budget (run c inputs) <= budget c + settles inputs.
Proof.
  revert c. induction inputs as [| i inputs IH]; intros c.
  - cbn. lia.
  - cbn [run fold_left]. specialize (IH (step c i)).
    unfold run in IH. pose proof (step_budget c i) as Hs.
    unfold settles in *. cbn [filter].
    destruct (is_settle i); cbn [length]; lia.
Qed.

Lemma renderWith_none (c : Instance) : renderWith None c = render c.
Proof. reflexivity. Qed.

Lemma clickWith_none (c : Instance) : clickWith None c = Some (click c).
Proof.
  unfold clickWith, click. rewrite renderWith_none. unfold render.
  destruct (isCurrentUser c); [reflexivity | ]. cbn [b_disabled].
  rewrite isLoading_inflight. destruct (inflight c); reflexivity.
Qed.

Lemma clickWith_guarded (d : option bool) (c : Instance) :
  keeps_guard d = true ->
  exists c', clickWith d c = Some c' /\ budget c' = budget c.
Proof.
  intros Hd. unfold clickWith, renderWith.
  destruct (isCurrentUser c); [exists c; split; reflexivity | ].
  cbn [b_disabled].
  destruct d as [[ | ] | ]; [ | discriminate Hd | ].
  - exists c. split; reflexivity.
  - rewrite isLoading_inflight.
    destruct (inflight c) eqn:Hk; [exists c; split; reflexivity | ].
    exists (handleFollow c). split; [reflexivity | ].
    apply handleFollow_budget. exact Hk.
Qed.

Lemma runWith_budget (events : list Event) (m : Mounted) :
  keeps_guard (passed_disabled m) = true -> guard_kept events = true ->
  exists m',
    runWith m events = Some m'
    /\ budget (instance m') <= budget (instance m) + settled_events events.
Proof.
  revert m. induction events as [| e events IH]; intros m Hm Hes.
  - exists m. split; [reflexivity | cbn; lia].
  - cbn [guard_kept forallb] in Hes. apply andb_prop in Hes as [He Hes].
    assert (Hstep : exists m1,
               stepWith m e = Some m1
               /\ keeps_guard (passed_disabled m1) = true
               /\ budget (instance m1)
                  <= budget (instance m)
                     + match e with Does (Settle _) => 1 | _ => 0 end).
    { destruct e as [[ | r | p | s] | d]; cbn [stepWith].
      - destruct (clickWith_guarded _ (instance m) Hm) as (c' & -> & Hb).
        eexists. split; [reflexivity | ]. cbn. split; [exact Hm | lia].
      - eexists. split; [reflexivity | ]. cbn [passed_disabled instance].
        split; [exact Hm | ].
        apply (step_budget (instance m) (Settle r)).
      - eexists. split; [reflexivity | ]. cbn [passed_disabled instance].
        split; [exact Hm | ].
        pose proof (step_budget (instance m) (NewProps p)) as H.
        cbn [is_settle] in H. exact H.
      - eexists. split; [reflexivity | ]. cbn [passed_disabled instance].
        split; [exact Hm | ].
        pose proof (step_budget (instance m) (NewSession s)) as H.
        cbn [is_settle] in H. exact H.
      - eexists. split; [reflexivity | ]. cbn. split; [exact He | lia]. }
    destruct Hstep as (m1 & Hst & Hm1 & Hb1).
    destruct (IH m1 Hm1 Hes) as (m' & Hrun & Hb').
    exists m'. cbn [runWith]. rewrite Hst. split; [exact Hrun | ].
    unfold settled_events in *. cbn [filter].
    destruct e as [[ | r | p | s] | d]; cbn [length] in *; lia.
Qed.

(** One mutation at a time, unless the parent switches the guard off.  As
    long as the parent passes no falsy [disabled] (which would take the place
    of [disabled={isLoading}]), a mounted button, whatever happens to it, has
    called a mutation at most once more than mutations have settled, and at
    most as often as they have settled when none is in flight. *)
Theorem follow_one_mutation_unless_enabled
    (p : Props) (s : option Session) (d : option bool)
    (events : list Event) :
  keeps_guard d = true -> guard_kept events = true ->
  exists m,
    runWith {| passed_disabled := d; instance := mount p s |} events = Some m
    /\ mutation_calls (instance m) <= settled_events events + 1
    /\ (inflight (instance m) = None ->
        mutation_calls (instance m) <= settled_events events).
Proof.
  intros Hd Hes.
  destruct (runWith_budget events
              {| passed_disabled := d; instance := mount p s |} Hd Hes)
    as (m & Hrun & Hb).
  exists m. split; [exact Hrun | ].
  unfold budget in Hb. cbn [instance inflight mount] in Hb.
  change (mutation_calls (mount p s)) with 0 in Hb.
  split.
  - destruct (inflight (instance m)); lia.
  - intros Hidle. rewrite Hidle in Hb. lia.
Qed.

Lemma follow_one_mutation_unless_enabled_witness :
  exists m,
    runWith {| passed_disabled := None;
               instance := mount FollowScenario.card FollowScenario.viewer |}
      [Does Click; Does Click; PassesDisabled (Some true);
       Does (Settle Resolved); Does Click; PassesDisabled None; Does Click]
    = Some m
    /\ mutation_calls (instance m) <= 2.
Proof.
  destruct (follow_one_mutation_unless_enabled FollowScenario.card
              FollowScenario.viewer None
              [Does Click; Does Click; PassesDisabled (Some true);
               Does (Settle Resolved); Does Click; PassesDisabled None;
               Does Click] eq_refl eq_refl) as (m & Hrun & Hle & _).
  exists m. split; [exact Hrun | exact Hle].
Defined.

Lemma click_idle (c : Instance) :
  isCurrentUser c = false -> inflight c = None -> click c = handleFollow c.
Proof.
  intros Hself Hidle. unfold click, render. rewrite Hself. cbn [b_disabled].
  rewrite isLoading_inflight, Hidle. reflexivity.
Qed.

Lemma isCurrentUser_ext (c c' : Instance) :
  props c' = props c -> session c' = session c ->
  isCurrentUser c' = isCurrentUser c.
Proof. intros Hp Hs. unfold isCurrentUser. rewrite Hp, Hs. reflexivity. Qed.

Lemma new_effects_app (c c' : Instance) (l : list Effect) :
  effects c' = (effects c ++ l)%list -> new_effects c c' = l.
Proof.
  intros H. unfold new_effects. rewrite H.
  rewrite skipn_app, skipn_all, Nat.sub_diag. reflexivity.
Qed.

(** A toggle that succeeds.  When a signed-in viewer clicks the idle button
    of another user and the mutation resolves, the state is the opposite of
    what it was; on the way the button told the parent (when it listens) the
    new value and called the follow mutation when the user was not followed,
    the unfollow mutation when they were, with the user's id, and nothing
    else.  A second such toggle brings the state back. *)
Theorem follow_toggle_succeeds (c : Instance) (s : Session) :
  session c = Some s -> isCurrentUser c = false -> inflight c = None ->
  isFollowing (settle Resolved (click c)) = negb (isFollowing c)
  /\ inflight (settle Resolved (click c)) = None
  /\ new_effects c (settle Resolved (click c)) = optimistic_effects c
  /\ isFollowing (run c [Click; Settle Resolved; Click; Settle Resolved])
     = isFollowing c.
Proof.
  intros Hs Hself Hidle.
  assert (Hround : forall c0,
    session c0 = Some s -> isCurrentUser c0 = false -> inflight c0 = None ->
    isFollowing (settle Resolved (click c0)) = negb (isFollowing c0)
    /\ inflight (settle Resolved (click c0)) = None
    /\ effects (settle Resolved (click c0))
       = (effects c0 ++ optimistic_effects c0)%list
    /\ props (settle Resolved (click c0)) = props c0
    /\ session (settle Resolved (click c0)) = session c0).
  { intros c0 Hs0 Hself0 Hidle0. rewrite (click_idle c0 Hself0 Hidle0).
    destruct (handleFollow_signed_in c0 s Hs0) as (Hf & Hk & He & Hp & Hss).
    unfold settle. rewrite Hk. cbn [resume isFollowing inflight effects
      props session]. repeat split; assumption. }
  destruct (Hround c Hs Hself Hidle) as (Hf & Hk & He & Hp & Hss).
  split; [exact Hf | ]. split; [exact Hk | ].
  split; [apply new_effects_app; exact He | ].
  cbn [run fold_left step].
  destruct (Hround (settle Resolved (click c))) as (Hf2 & _).
  - rewrite Hss. exact Hs.
  - rewrite (isCurrentUser_ext c _ Hp Hss). exact Hself.
  - exact Hk.
  - rewrite Hf2, Hf. apply negb_involutive.
Qed.

Lemma follow_toggle_succeeds_witness :
  isFollowing
    (settle Resolved (click (mount FollowScenario.card FollowScenario.viewer)))
  = true
  /\ new_effects (mount FollowScenario.card FollowScenario.viewer)
       (settle Resolved
          (click (mount FollowScenario.card FollowScenario.viewer)))
     = [follow_mutateAsync "u2"].
Proof.
  destruct (follow_toggle_succeeds
              (mount FollowScenario.card FollowScenario.viewer)
              {| user := Some {| id := "u1" |} |}
              eq_refl eq_refl eq_refl) as (Hf & _ & He & _).
  split; [exact Hf | exact He].
Defined.

Lemma last_reported_app (c c' : Instance) (l : list Effect) (v : bool) :
  effects c' = (effects c ++ l)%list ->
  fold_left
    (fun acc e => match reported e with Some v => Some v | None => acc end)
    l (last_reported c) = Some v ->
  last_reported c' = Some v.
Proof.
  intros He Hl. unfold last_reported in *. rewrite He, fold_left_app.
  exact Hl.
Qed.

(** The parent is kept informed.  When the parent passes [onFollowChange],
    then after a click of a signed-in viewer and the settling of its
    mutation, either way, the value last passed to [onFollowChange] is the
    state the button is in. *)
Theorem follow_change_reported (c : Instance) (s : Session) (r : Settled) :
  session c = Some s -> onFollowChange (props c) = true ->
  last_reported (settle r (handleFollow c))
  = Some (isFollowing (settle r (handleFollow c))).
Proof.
  intros Hs Hcb.
  destruct (handleFollow_signed_in c s Hs) as (Hf & Hk & He & Hp & Hss).
  unfold optimistic_effects in He. rewrite Hcb in He.
  unfold settle. rewrite Hk. destruct r as [ | e].
  - cbn [resume isFollowing]. rewrite Hf.
    apply (last_reported_app c _ _ _ He).
    destruct (isFollowing c); reflexivity.
  - assert (Hst : isFollowing
                    (handleFollow_catch
                       {| k_mutation := if isFollowing c then Unfollow
                                        else Follow;
                          k_initialIsFollowing := initialIsFollowing (props c);
                          k_onFollowChange := onFollowChange (props c) |}
                       e (resume (handleFollow c)))
                  = initialIsFollowing (props c)).
    { unfold handleFollow_catch, seq. rewrite Hcb. reflexivity. }
    rewrite Hst.
    eapply (last_reported_app c).
    + rewrite catch_effects. cbn [resume effects k_onFollowChange
        k_initialIsFollowing]. rewrite He, Hcb, <- app_assoc. reflexivity.
    + rewrite fold_left_app. destruct e, (isFollowing c); reflexivity.
Qed.

Lemma follow_change_reported_witness :
  last_reported
    (settle (Rejected NotAnError)
       (handleFollow
          (mount FollowScenario.own_card
             (Some {| user := Some {| id := "u9" |} |}))))
  = Some false.
Proof.
  exact (follow_change_reported
           (mount FollowScenario.own_card
              (Some {| user := Some {| id := "u9" |} |}))
           {| user := Some {| id := "u9" |} |} (Rejected NotAnError)
           eq_refl eq_refl).
Defined.

(** What is shown while the mutation runs.  After the click of a signed-in
    viewer on the idle button of another user went through, the button shows
    the spinner alone, neither "Follow" nor "Following", and the optimistic
    state in its variant only; it is disabled, unless the parent passes a
    [disabled] of its own, which then decides.  When the button is disabled a
    further click does nothing. *)
Theorem follow_pending_button_shown
    (c : Instance) (s : Session) (d : option bool) :
  session c = Some s -> isCurrentUser c = false -> inflight c = None ->
  renderWith d (handleFollow c)
  = Some {| b_variant := if isFollowing c then variant (props c)
                         else "outline";
            b_disabled := match d with Some v => v | None => true end;
            b_icon := Some Loader2;
            b_text := None |}
  /\ (d <> Some false ->
      clickWith d (handleFollow c) = Some (handleFollow c)).
Proof.
  intros Hs Hself Hidle.
  destruct (handleFollow_signed_in c s Hs) as (Hf & Hk & He & Hp & Hss).
  assert (Hrender : renderWith d (handleFollow c)
                    = Some {| b_variant := if isFollowing c
                                           then variant (props c)
                                           else "outline";
                              b_disabled := match d with
                                            | Some v => v
                                            | None => true
                                            end;
                              b_icon := Some Loader2;
                              b_text := None |}).
  { unfold renderWith.
    rewrite (isCurrentUser_ext c _ Hp Hss), Hself, isLoading_inflight, Hk.
    rewrite Hf, Hp. destruct (isFollowing c); reflexivity. }
  split; [exact Hrender | ].
  intros Hd. unfold clickWith. rewrite Hrender. cbn [b_disabled].
  destruct d as [[ | ] | ]; [reflexivity | contradiction | reflexivity].
Qed.

Lemma follow_pending_button_shown_witness :
  renderWith None (handleFollow FollowScenario.followed)
  = Some {| b_variant := "pixel"; b_disabled := true;
            b_icon := Some Loader2; b_text := None |}
  /\ renderWith (Some false) (handleFollow FollowScenario.followed)
     = Some {| b_variant := "pixel"; b_disabled := false;
               b_icon := Some Loader2; b_text := None |}.
Proof.
  split.
  - apply (follow_pending_button_shown FollowScenario.followed
             {| user := Some {| id := "u1" |} |} None eq_refl eq_refl eq_refl).
  - apply (follow_pending_button_shown FollowScenario.followed
             {| user := Some {| id := "u1" |} |} (Some false)
             eq_refl eq_refl eq_refl).
Defined.

(** When the rollback is a rollback.  After a failed mutation the state is
    the one shown before the click exactly when that state was the
    [isFollowing] prop of the render that handled the click. *)
Theorem follow_rollback_exact (c : Instance) (s : Session) (e : Thrown) :
  session c = Some s ->
  isFollowing (settle (Rejected e) (handleFollow c)) = isFollowing c
  <-> isFollowing c = initialIsFollowing (props c).
Proof.
  intros Hs.
  destruct (handleFollow_signed_in c s Hs) as (_ & Hk & _).
  unfold settle. rewrite Hk.
  assert (Hst : forall k c0,
    isFollowing (handleFollow_catch k e c0) = k_initialIsFollowing k).
  { intros k c0. unfold handleFollow_catch, seq.
    destruct (k_onFollowChange k); reflexivity. }
  rewrite Hst. cbn [k_initialIsFollowing].
  split; intros H; symmetry; exact H.
Qed.

Lemma follow_rollback_exact_witness :
  isFollowing
    (settle (Rejected NotAnError)
       (handleFollow (mount FollowScenario.card FollowScenario.viewer)))
  = false.
Proof.
  apply (proj2 (follow_rollback_exact
                  (mount FollowScenario.card FollowScenario.viewer)
                  {| user := Some {| id := "u1" |} |} NotAnError eq_refl)).
  reflexivity.
Defined.

End FollowButtonBehaviour.

(** * Further properties of DashboardFeed *)

Section DashboardFeedBehaviour.
Import DashboardFeed.

(** ** Which query runs *)

Lemma enabled_spec (limit : nat) (inf : bool) (s : FeedSource) (w : Instance) :
  enabled (queryOptions limit inf s w)
  = (activeTab w === tab_id s)
    && match s with following => signedIn w | _ => true end
    && Bool.eqb inf (infiniteScroll (props w)).
Proof.
  unfold queryOptions.
  destruct inf, s; cbn [enabled infiniteOptions pagedOptions tab_id];
    destruct (activeTab w =? _)%string, (infiniteScroll (props w));
    cbn; rewrite ?andb_true_r, ?andb_false_r; reflexivity.
Qed.

(** At most one query runs.  Of the eight queries the feed declares, only
    the one of the active tab's source in the configured mode can be enabled,
    and the following queries only with a session; so no two of them are
    ever enabled together. *)
Theorem feed_one_query_enabled
    (limit : nat) (w : Instance) (inf inf' : bool) (s s' : FeedSource) :
  enabled (queryOptions limit inf s w) = true ->
  enabled (queryOptions limit inf' s' w) = true ->
  inf = inf' /\ s = s'
  /\ inf = infiniteScroll (props w) /\ activeTab w = tab_id s
  /\ (s = following -> session w <> None).
Proof.
  rewrite !enabled_spec. intros H H'.
  apply andb_prop in H as [H Hm]. apply andb_prop in H as [Ht Hs].
  apply andb_prop in H' as [H' Hm']. apply andb_prop in H' as [Ht' _].
  apply Bool.eqb_prop in Hm, Hm'. apply String.eqb_eq in Ht, Ht'.
  repeat split.
  - congruence.
  - apply tab_id_injective. congruence.
  - exact Hm.
  - exact Ht.
  - intros ->. unfold signedIn in Hs. destruct (session w); congruence.
Qed.

Lemma feed_one_query_enabled_witness :
  true = infiniteScroll (props FeedScenario.explore)
  /\ activeTab FeedScenario.explore = "creators".
Proof.
  destruct (feed_one_query_enabled 20 FeedScenario.explore true true
              creators creators eq_refl eq_refl) as (_ & _ & Hm & Ht & _).
  split; [exact Hm | exact Ht].
Defined.

(** ** An unknown tab *)

Lemma unknown_tab_eqb (w : Instance) :
  unknown_tab (activeTab w) ->
  (activeTab w === "trending") = false
  /\ (activeTab w === "following") = false
  /\ (activeTab w === "assets") = false
  /\ (activeTab w === "creators") = false.
Proof.
  intros H. repeat split; apply String.eqb_neq.
  - apply (H trending).
  - apply (H following).
  - apply (H assets).
  - apply (H creators).
Qed.

(** When the active tab is none of the four known ids, the feed shows what
    the trending query holds, yet none of the eight queries is enabled and
    the next-page trigger does nothing; a refresh reloads the trending
    query. *)
Theorem feed_unknown_tab (limit : nat) (b : Backend) (w : Instance) :
  unknown_tab (activeTab w) ->
  getTabData w
  = (if infiniteScroll (props w) then infiniteTabData trending w
     else pagedTabData trending w)
  /\ (forall inf s, enabled (queryOptions limit inf s w) = false)
  /\ fetchNextPage w = (Returns tt, w)
  /\ new_calls w (snd (refreshFeed b w))
     = [reloadOf (infiniteScroll (props w)) trending].
Proof.
  intros Hunk. destruct (unknown_tab_eqb w Hunk) as (Ht & Hf & Ha & Hc).
  split; [ | split; [ | split]].
  - unfold getTabData. rewrite Ht, Hf, Ha, Hc.
    destruct (infiniteScroll (props w)); reflexivity.
  - intros inf s. rewrite enabled_spec.
    destruct s; cbn [tab_id]; rewrite ?Ht, ?Hf, ?Ha, ?Hc; reflexivity.
  - unfold fetchNextPage.
    destruct (hasMore (getTabData w) && negb (isLoadingMore (getTabData w)));
      [ | reflexivity].
    unfold fetchMoreForCurrentTab, switch. cbn [from_case from_default].
    rewrite Ht, Hf, Ha, Hc. reflexivity.
  - apply new_calls_app.
    unfold refreshFeed, switch. cbn [from_case from_default].
    rewrite Ht, Hf, Ha, Hc.
    destruct (infiniteScroll (props w));
      unfold bind, stmt, try_finally, await, ret; cbn [run_clauses];
      unfold bind, await, ret;
      match goal with
      | |- context [fst (?g ?f)] => destruct (fst (g f))
      end; cbn; rewrite fold_reset_calls; reflexivity.
Qed.

Lemma feed_unknown_tab_witness :
  fetchNextPage (handleTabChange "popular" FeedScenario.home)
  = (Returns tt, handleTabChange "popular" FeedScenario.home)
  /\ new_calls (handleTabChange "popular" FeedScenario.home)
       (snd (refreshFeed FeedScenario.reloads_succeed
               (handleTabChange "popular" FeedScenario.home)))
     = [reloadTrendingInfinite].
Proof.
  destruct (feed_unknown_tab 20 FeedScenario.reloads_succeed
              (handleTabChange "popular" FeedScenario.home))
    as (_ & _ & Hfetch & Hcalls).
  - intros s. destruct s; cbn; discriminate.
  - split; [exact Hfetch | exact Hcalls].
Defined.

(** ** Refresh, continued *)

Lemma keeps_ret {A : Type} (P : Instance -> Prop) (a : A) : keeps P (ret a).
Proof. intros w Hw. exact Hw. Qed.

Lemma keeps_bind {A B : Type} (P : Instance -> Prop)
    (c : M A) (k : A -> M B) :
  keeps P c -> (forall a, keeps P (k a)) -> keeps P (bind c k).
Proof.
  intros Hc Hk w Hw. unfold bind. specialize (Hc w Hw).
  destruct (c w) as [[a | e] w']; cbn [snd] in *.
  - apply Hk. exact Hc.
  - exact Hc.
Qed.

Lemma keeps_run_clauses (P : Instance -> Prop) (cs : list Clause) :
  Forall (fun c => keeps P (snd c)) cs -> keeps P (run_clauses cs).
Proof.
  induction 1 as [| [l body] cs Hbody _ IH]; cbn [run_clauses].
  - apply keeps_ret.
  - apply keeps_bind; [exact Hbody | ].
    intros [ | ]; [apply keeps_ret | exact IH].
Qed.

Lemma keeps_switch (P : Instance -> Prop) (v : string) (cs : list Clause) :
  Forall (fun c => keeps P (snd c)) cs -> keeps P (switch v cs).
Proof.
  intros Hcs. unfold switch.
  destruct (from_case v cs) as [cs' | ] eqn:Hcase.
  - apply from_case_suffix in Hcase as [pre ->].
    apply keeps_run_clauses. apply Forall_app in Hcs. apply Hcs.
  - destruct (from_default cs) as [cs' | ] eqn:Hdef.
    + apply from_default_suffix in Hdef as [pre ->].
      apply keeps_run_clauses. apply Forall_app in Hcs. apply Hcs.
    + apply keeps_ret.
Qed.

Lemma keeps_await_spinning (b : Backend) (f : Call) :
  keeps (fun w => timers w = [] /\ isRefreshing w = true) (await b f).
Proof.
  intros w [Ht Hr]. unfold await, elapse.
  destruct (fst (b f)); cbn [snd emit timers now]; rewrite Ht; cbn;
    split; [reflexivity | exact Hr | reflexivity | exact Hr].
Qed.

Lemma bind_stmt_snd {A : Type} (f : Instance -> Instance) (c : M A)
    (w : Instance) :
  snd ((stmt f >> c) w) = snd (c (f w)).
Proof. reflexivity. Qed.

Lemma try_finally_snd {A : Type} (c : M A) (h : Instance -> Instance)
    (w : Instance) :
  snd (try_finally c h w) = h (snd (c w)).
Proof. unfold try_finally. destruct (c w); reflexivity. Qed.

Lemma refreshFeed_spinning (b : Backend) (w : Instance) :
  timers w = [] ->
  exists w',
    snd (refreshFeed b w) = setTimeout_setIsRefreshing_false 500 w'
    /\ timers w' = [] /\ isRefreshing w' = true.
Proof.
  intros Ht. unfold refreshFeed. rewrite bind_stmt_snd, try_finally_snd.
  eexists. split; [reflexivity | ].
  apply (keeps_switch (fun w => timers w = [] /\ isRefreshing w = true)).
  - repeat apply Forall_cons; try apply Forall_nil; cbn [snd];
      (apply keeps_bind; [ | intros _; apply keeps_ret]);
      destruct (infiniteScroll (props w)); apply keeps_await_spinning.
  - split; [exact Ht | reflexivity].
Qed.

(** How long the refresh control stays busy.  When no earlier timer is
    pending, [isRefreshing] is on from the end of [refreshFeed] for exactly
    500 ms, whether the reload came back or threw; during that time a click
    on "Refresh" does nothing. *)
Theorem feed_refresh_busy_500ms (b b' : Backend) (w : Instance) (d : nat) :
  timers w = [] ->
  isRefreshing (elapse d (snd (refreshFeed b w))) = (d <? 500)%nat
  /\ (d < 500 ->
      clickRefresh b' (elapse d (snd (refreshFeed b w)))
      = elapse d (snd (refreshFeed b w))).
Proof.
  intros Ht.
  destruct (refreshFeed_spinning b w Ht) as (w' & -> & Ht' & Hr').
  assert (Hflag : isRefreshing
                    (elapse d (setTimeout_setIsRefreshing_false 500 w'))
                  = (d <? 500)%nat).
  { unfold elapse, setTimeout_setIsRefreshing_false.
    cbn [timers now setClock]. rewrite Ht'. cbn [app filter].
    destruct (Nat.leb_spec (now w' + 500) (now w' + d)) as [Hle | Hlt];
      cbn [negb fold_left isRefreshing setIsRefreshing setClock].
    - symmetry. apply Nat.ltb_ge. lia.
    - rewrite Hr'. symmetry. apply Nat.ltb_lt. lia. }
  split; [exact Hflag | ].
  intros Hd. unfold clickRefresh. rewrite Hflag.
  apply Nat.ltb_lt in Hd. rewrite Hd, orb_true_r. reflexivity.
Qed.

Lemma feed_refresh_busy_500ms_witness :
  isRefreshing
    (elapse 499 (snd (refreshFeed FeedScenario.reloads_fail FeedScenario.home)))
  = true
  /\ isRefreshing
       (elapse 500
          (snd (refreshFeed FeedScenario.reloads_fail FeedScenario.home)))
     = false.
Proof.
  split.
  - apply (feed_refresh_busy_500ms FeedScenario.reloads_fail
             FeedScenario.reloads_fail FeedScenario.home 499 eq_refl).
  - apply (feed_refresh_busy_500ms FeedScenario.reloads_fail
             FeedScenario.reloads_fail FeedScenario.home 500 eq_refl).
Defined.

Lemma skipn_length_app {A : Type} (l l' : list A) :
  skipn (length l) (l ++ l') = l'.
Proof. rewrite skipn_app, skipn_all, Nat.sub_diag. reflexivity. Qed.

(** [refreshFeed] has no [catch].  It returns normally exactly when every
    reload it called came back; when it throws, what it throws is the error
    of a reload it called, and nothing is shown to the user. *)
Theorem feed_refresh_rethrows (b : Backend) (w : Instance) :
  (fst (refreshFeed b w) = Returns tt
   <-> Forall (fun f => fst (b f) = Resolved)
         (new_calls w (snd (refreshFeed b w))))
  /\ (forall e, fst (refreshFeed b w) = Throws e ->
      exists f, In f (new_calls w (snd (refreshFeed b w)))
                /\ fst (b f) = Rejected e).
Proof.
  unfold refreshFeed, switch. cbn [from_case from_default].
  destruct (String.eqb_spec (activeTab w) "trending") as [Ht | _];
    [ | destruct (String.eqb_spec (activeTab w) "following") as [Hf | _];
        [ | destruct (String.eqb_spec (activeTab w) "assets") as [Ha | _];
            [ | destruct (String.eqb_spec (activeTab w) "creators")
                  as [Hc | _] ] ] ].
  all: destruct (infiniteScroll (props w));
    unfold bind, stmt, try_finally, await, ret; cbn [run_clauses];
    unfold bind, await, ret;
    repeat match goal with
      | |- context [fst (?g ?f)] =>
          is_var g;
          lazymatch goal with
          | H : fst (g f) = _ |- _ => fail
          | _ => destruct (fst (g f)) eqn:?
          end
      end;
    unfold new_calls; cbn; repeat (rewrite fold_reset_calls; cbn);
    rewrite <- ?app_assoc, skipn_length_app; cbn;
    (split;
     [ split;
       [ intros He;
         first [ discriminate He
               | repeat (apply Forall_cons; [assumption | ]);
                 apply Forall_nil ]
       | intros HF;
         first [ reflexivity
               | exfalso; inversion HF as [| ? ? H1 HF1]; subst;
                 first [ congruence | inversion HF1; subst; congruence ] ] ]
     | intros e0 He;
       first [ discriminate He
             | injection He as <-; eexists; split; cycle 1;
               [eassumption | cbn; auto] ] ]).
Qed.

(** ** Layout *)

(** After a switch of the view mode in a feed with sidecards, the list is
    laid out with "space-y-4" and the grid with the responsive four-column
    class; the single-feed class is not used any more. *)
Theorem feed_grid_class_after_switch (w : Instance) (mode : ViewMode) :
  showSidecards (props w) = true ->
  getGridClass (handleViewModeChange mode w)
  = if is_list mode then "space-y-4"
    else "grid grid-cols-1 sm:grid-cols-2 md:grid-cols-3 lg:grid-cols-4 gap-6".
Proof.
  intros Hs. unfold handleViewModeChange, seq. rewrite Hs.
  destruct mode, (onViewModeChange (props w)); reflexivity.
Qed.

Lemma feed_grid_class_after_switch_witness :
  getGridClass (handleViewModeChange grid FeedScenario.home)
  = "grid grid-cols-1 sm:grid-cols-2 md:grid-cols-3 lg:grid-cols-4 gap-6".
Proof.
  apply (feed_grid_class_after_switch FeedScenario.home grid). reflexivity.
Defined.

(** A feed with sidecards that is mounted in grid view with more than one
    item per row shows its sidecards and uses the single-feed class; a click
    on "Grid view", the view already shown, replaces that by the four-column
    grid without sidecards. *)
Theorem feed_grid_button_changes_mounted_grid
    (p : Props) (sess : option Session)
    (inf : FeedSource -> InfiniteQuery) (pg : FeedSource -> PagedQuery) :
  showSidecards p = true -> defaultViewMode p = grid ->
  itemsPerRow p <> 1%Z ->
  getGridClass (mount p sess inf pg) = "grid grid-single-feed"
  /\ showCurrentSidecards (mount p sess inf pg) = true
  /\ getGridClass (handleViewModeChange grid (mount p sess inf pg))
     = "grid grid-cols-1 sm:grid-cols-2 md:grid-cols-3 lg:grid-cols-4 gap-6"
  /\ showCurrentSidecards (handleViewModeChange grid (mount p sess inf pg))
     = false.
Proof.
  intros Hs Hm Hn.
  assert (Hmount : mount p sess inf pg
                   = setViewMode grid (initial p sess inf pg)).
  { unfold mount, initViewMode, seq. cbn [props initial].
    rewrite Hs, Hm. reflexivity. }
  rewrite Hmount. split; [ | split; [ | split]].
  - unfold getGridClass. cbn [viewMode setViewMode is_grid negb
      currentItemsPerRow showCurrentSidecards initial].
    apply Z.eqb_neq in Hn. rewrite Hn, Hs. reflexivity.
  - cbn. exact Hs.
  - apply feed_grid_class_after_switch. exact Hs.
  - unfold handleViewModeChange, seq. cbn [props setViewMode initial].
    rewrite Hs. destruct (onViewModeChange p); reflexivity.
Qed.

Lemma feed_grid_button_changes_mounted_grid_witness :
  getGridClass FeedScenario.home = "grid grid-single-feed"
  /\ getGridClass (handleViewModeChange grid FeedScenario.home)
     = "grid grid-cols-1 sm:grid-cols-2 md:grid-cols-3 lg:grid-cols-4 gap-6".
Proof.
  destruct (feed_grid_button_changes_mounted_grid FeedScenario.home_props
              FeedScenario.viewer
              (infinite FeedScenario.home) FeedScenario.no_items)
    as (H1 & _ & H3 & _).
  - reflexivity.
  - reflexivity.
  - discriminate.
  - split; [exact H1 | exact H3].
Defined.









(** ** Tab content *)

(** The creators tab cannot ask for more.  Whatever the creators query
    holds, the content of the creators tab has neither the observed element
    of infinite scroll nor a "Load More" button. *)
Theorem feed_creators_tab_has_no_load_more
    (tab : TabOption) (custom : bool) (w : Instance) :
  tab_key tab = "creators" ->
  (forall className l variant more reachedEnd,
      tabContent tab custom w
      <> AssetCards className l variant more reachedEnd)
  /\ clickLoadMore tab custom w = w.
Proof.
  intros Hkey.
  assert (Hshape : forall className l variant more reachedEnd,
             tabContent tab custom w
             <> AssetCards className l variant more reachedEnd).
  { intros className l variant more reachedEnd.
    unfold tabContent. rewrite Hkey. cbn [String.eqb Ascii.eqb Bool.eqb andb].
    destruct (isLoading (getTabData w)); [discriminate | ].
    destruct (error (getTabData w)); [discriminate | ].
    destruct (length (data (getTabData w)) =? 0)%nat; discriminate. }
  split; [exact Hshape | ].
  unfold clickLoadMore.
  destruct (tabContent tab custom w) as [ | | | | | | c l v more r] eqn:Hc;
    try reflexivity.
  exfalso. exact (Hshape c l v more r eq_refl).
Qed.

Lemma feed_creators_tab_has_no_load_more_witness :
  clickLoadMore {| tab_key := "creators"; label := "Creators";
                   requiredAuth := false |} false FeedScenario.explore
  = FeedScenario.explore.
Proof.
  apply (feed_creators_tab_has_no_load_more
           {| tab_key := "creators"; label := "Creators";
              requiredAuth := false |} false FeedScenario.explore).
  reflexivity.
Defined.

(** Signed out on the following tab.  Without a session the following tab
    shows the sign-in prompt whatever the queries hold, neither following
    query is enabled, and a tab that requires a session cannot be
    selected. *)
Theorem feed_following_needs_session
    (limit : nat) (tab : TabOption) (custom : bool) (w : Instance) :
  session w = None ->
  (tab_key tab = "following" -> tabContent tab custom w = SignInPrompt)
  /\ (forall inf, enabled (queryOptions limit inf following w) = false)
  /\ (requiredAuth tab = true -> clickTab tab w = w).
Proof.
  intros Hs.
  assert (Hout : signedIn w = false) by (unfold signedIn; rewrite Hs; reflexivity).
  split; [ | split].
  - intros Hkey. unfold tabContent. rewrite Hkey, Hout. reflexivity.
  - intros inf. rewrite enabled_spec, Hout.
    rewrite andb_false_r. reflexivity.
  - intros Hreq. unfold clickTab. rewrite Hreq, Hout. reflexivity.
Qed.

Lemma feed_following_needs_session_witness :
  tabContent {| tab_key := "following"; label := "Following";
                requiredAuth := true |} false
    (fresh FeedScenario.home_props None (fun _ => true) FeedScenario.no_items)
  = SignInPrompt.
Proof.
  apply (feed_following_needs_session 20
           {| tab_key := "following"; label := "Following";
              requiredAuth := true |} false
           (fresh FeedScenario.home_props None (fun _ => true)
              FeedScenario.no_items) eq_refl).
  reflexivity.
Defined.

Lemma loadMore_getTabData (w : Instance) :
  infiniteScroll (props w) = false ->
  exists s, loadMore (getTabData w) = loadMoreOf s
            /\ hasMore (getTabData w) = pq_hasMore (paged w s)
            /\ isLoadingMore (getTabData w) = pq_isLoadingMore (paged w s).
Proof.
  intros Hm. unfold getTabData. rewrite Hm.
  destruct (activeTab w === "trending"); [exists trending; repeat split | ].
  destruct (activeTab w === "following"); [exists following; repeat split | ].
  destruct (activeTab w === "assets"); [exists assets; repeat split | ].
  destruct (activeTab w === "creators"); [exists creators; repeat split | ].
  exists trending; repeat split.
Qed.

(** The "Load More" button.  A click on it does something only without
    infinite scroll, on an assets tab that shows cards, has more and is not
    loading more; then it makes one call, [loadMore] of a paged query whose
    flags say so. *)
Theorem feed_load_more_button
    (tab : TabOption) (custom : bool) (w : Instance) :
  clickLoadMore tab custom w <> w ->
  infiniteScroll (props w) = false
  /\ tab_key tab <> "creators"
  /\ exists s,
       clickLoadMore tab custom w = emit (loadMoreOf s) w
       /\ pq_hasMore (paged w s) = true
       /\ pq_isLoadingMore (paged w s) = false.
Proof.
  intros Hclick.
  assert (Hkey : tab_key tab <> "creators").
  { intros Hkey. apply Hclick.
    apply (feed_creators_tab_has_no_load_more tab custom w Hkey). }
  unfold clickLoadMore in *.
  destruct (tabContent tab custom w)
    as [ | | | | | | c l v [[sp | [ | ]] | ] r] eqn:Hc;
    try (exfalso; apply Hclick; reflexivity).
  unfold tabContent in Hc.
  destruct ((tab_key tab === "following") && negb (signedIn w));
    [discriminate Hc | ].
  destruct (tab_key tab === "creators") eqn:Hcr;
    [apply String.eqb_eq in Hcr; contradiction | ].
  destruct (isLoading (getTabData w)); [discriminate Hc | ].
  destruct (error (getTabData w)); [discriminate Hc | ].
  destruct (length (data (getTabData w)) =? 0)%nat;
    [destruct (tab_key tab === "following"); discriminate Hc | ].
  destruct (hasMore (getTabData w)) eqn:Hmore; [ | discriminate Hc].
  destruct (infiniteScroll (props w)) eqn:Hm; [discriminate Hc | ].
  destruct (isLoadingMore (getTabData w)) eqn:Hlm; [discriminate Hc | ].
  split; [reflexivity | ]. split; [exact Hkey | ].
  destruct (loadMore_getTabData w Hm) as (s & Hl & Hh & Hi).
  exists s. rewrite Hl. split; [reflexivity | ]. split; congruence.
Qed.

Lemma feed_load_more_button_witness :
  infiniteScroll (props FeedScenario.paged_feed) = false
  /\ new_calls FeedScenario.paged_feed
       (clickLoadMore FeedScenario.trending_tab false FeedScenario.paged_feed)
     = [loadMoreTrending].
Proof.
  split; [ | reflexivity].
  apply (feed_load_more_button FeedScenario.trending_tab false
           FeedScenario.paged_feed).
  discriminate.
Defined.

End DashboardFeedBehaviour.

(** * Properties of ProfileSettingsPage *)

Section ProfilePageBehaviour.
Import ProfileSettingsPage.

(** ** The schema *)






(** ** Submitting *)

Lemma new_effects_log (l : list Effect) (c : Page) (f : Page -> Page) :
  effects (f (log l c)) = effects (log l c) ->
  new_effects c (f (log l c)) = l.
Proof.
  intros H. unfold new_effects. rewrite H. cbn [effects log].
  rewrite skipn_app, skipn_all, Nat.sub_diag. reflexivity.
Qed.

Lemma page_eq (c c' : Page) :
  session c = session c' -> isUpdating c = isUpdating c' ->
  isLoading c = isLoading c' -> error c = error c' ->
  profileImage c = profileImage c' ->
  profileImagePreview c = profileImagePreview c' ->
  bannerImage c = bannerImage c' ->
  bannerImagePreview c = bannerImagePreview c' ->
  form_values c = form_values c' -> form_errors c = form_errors c' ->
  isSubmitted c = isSubmitted c' ->
  reading c = reading c' -> effects c = effects c' ->
  c = c'.
Proof.
  destruct c, c'; cbn; intros; subst; reflexivity.
Qed.

(** The effects of [onSubmit] for a signed-in user, read off its branches:
    the uploads that are due, the update of the profile, the update of the
    session, and the toast; the first rejection cuts the list short. *)
Lemma onSubmit_signed_in (b : Backend) (data : ProfileFormValues)
    (c : Page) (s : PageSession) :
  session c = Some s ->
  exists l,
    onSubmit b data c = (Returns tt, setIsUpdating false (log l c))
    /\ length (filter is_toast l) = 1
    /\ (length (filter is_updateProfile l) <= 1)%nat.
Proof.
  intros Hs. unfold onSubmit. rewrite Hs.
  unfold bind, stmt, try_catch_finally, try_catch, await, ret.
  destruct (profileImage c) as [pf | ] eqn:Hpf;
    [destruct (startProfileUpload b [pf]) as [r1 | e1] | ];
    (destruct (bannerImage c) as [bf | ] eqn:Hbf;
     [destruct (startBannerUpload b [bf]) as [r2 | e2] | ]);
    try match goal with
      | |- context [updateProfile b ?d] =>
          destruct (updateProfile b d) as [u | e3]
      end;
    try (destruct (update b) as [[[] | e4] | ]);
    eexists; (split; [ | split]);
    try (apply f_equal; apply page_eq;
         cbn [session isUpdating isLoading error profileImage
              profileImagePreview bannerImage bannerImagePreview
              form_values form_errors isSubmitted reading effects
              setIsUpdating log emit];
         rewrite <- ?app_assoc; cbn [app]; reflexivity);
    cbn [length filter is_toast is_updateProfile]; lia.
Qed.

Lemma new_effects_onSubmit (l : list Effect) (c : Page) :
  new_effects c (setIsUpdating false (log l c)) = l.
Proof. apply (new_effects_log l c (setIsUpdating false)). reflexivity. Qed.

(** [onSubmit] always comes to an end.  Whatever the collaborators do, it
    returns normally, has shown exactly one toast (success or error) and
    has called [updateProfile] at most once; with a session [isUpdating] is
    off again, without one nothing but the toast happened. *)
Theorem profile_submit_finishes
    (b : Backend) (data : ProfileFormValues) (c : Page) :
  fst (onSubmit b data c) = Returns tt
  /\ length (filter is_toast (new_effects c (snd (onSubmit b data c)))) = 1
  /\ (length (filter is_updateProfile
                (new_effects c (snd (onSubmit b data c)))) <= 1)%nat
  /\ match session c with
     | Some _ => isUpdating (snd (onSubmit b data c)) = false
     | None =>
         snd (onSubmit b data c)
         = emit (toast_error "You must be signed in to update your profile") c
     end.
Proof.
  destruct (session c) as [s | ] eqn:Hs.
  - destruct (onSubmit_signed_in b data c s Hs) as (l & -> & Ht & Hu).
    cbn [fst snd]. rewrite new_effects_onSubmit. repeat split; assumption.
  - unfold onSubmit. rewrite Hs. cbn [stmt fst snd].
    assert (Hnew : new_effects c
                     (emit (toast_error
                              "You must be signed in to update your profile") c)
                   = [toast_error
                        "You must be signed in to update your profile"]).
    { unfold new_effects, emit. cbn [effects].
      rewrite skipn_app, skipn_all, Nat.sub_diag. reflexivity. }
    rewrite Hnew. cbn. repeat split. lia.
Qed.



(** An upload that fails stops the submission: the banner is not uploaded,
    the profile is not updated, and the error is logged and shown. *)
Theorem profile_submit_upload_fails
    (b : Backend) (data : ProfileFormValues) (c : Page) (s : PageSession)
    (f : File) (e : Exn) :
  session c = Some s ->
  profileImage c = Some f ->
  startProfileUpload b [f] = Rejects e ->
  new_effects c (snd (onSubmit b data c))
  = [startProfileUpload_call [f];
     console_error "Profile update error:";
     toast_error (submit_error_message e)].
Proof.
  intros Hs Hf He. unfold onSubmit. rewrite Hs, Hf.
  unfold bind, stmt, try_catch_finally, try_catch, await, ret.
  rewrite He.
  unfold new_effects; cbn [snd effects setIsUpdating emit].
  rewrite <- ?app_assoc, skipn_length_app. destruct e; reflexivity.
Qed.

Lemma profile_submit_upload_fails_witness :
  new_effects
    (handleProfileImageChange (picked_file ProfileScenario.photo)
       (mount ProfileScenario.member ProfileScenario.api_down))
    (snd (onSubmit ProfileScenario.api_down ProfileScenario.typed
            (handleProfileImageChange (picked_file ProfileScenario.photo)
               (mount ProfileScenario.member ProfileScenario.api_down))))
  = [startProfileUpload_call [ProfileScenario.photo];
     console_error "Profile update error:";
     toast_error "Failed to update profile. Please try again."].
Proof.
  apply (profile_submit_upload_fails ProfileScenario.api_down
           ProfileScenario.typed
           (handleProfileImageChange (picked_file ProfileScenario.photo)
              (mount ProfileScenario.member ProfileScenario.api_down))
           {| session_user :=
                Some {| user_id := Some "u1"; user_name := Some "Ada";
                        user_username := Some "ada_l";
                        user_image := None |} |}
           ProfileScenario.photo OtherError); reflexivity.
Defined.

(** ** Loading the profile *)

Lemma identified_some (c : Page) (u : SessionUser) :
  identified (session c) = Some u ->
  exists s, session c = Some s /\ session_user s = Some u
            /\ truthy (user_id u) = true.
Proof.
  unfold identified. destruct (session c) as [s | ]; [ | discriminate].
  destruct (session_user s) as [u0 | ] eqn:Hu; [ | discriminate].
  destruct (truthy (user_id u0)) eqn:Hid; [ | discriminate].
  intros H. injection H as <-. exists s.
  split; [reflexivity | ]. split; [exact Hu | exact Hid].
Qed.

Lemma identified_none (b : Backend) (c : Page) :
  identified (session c) = None -> fetchUserProfile b c = (Returns tt, c).
Proof.
  unfold identified, fetchUserProfile.
  destruct (session c) as [s | ]; [ | reflexivity].
  destruct (session_user s) as [u | ]; [ | reflexivity].
  destruct (truthy (user_id u)); [discriminate | reflexivity].
Qed.

(** Loading never fails.  For a session whose user has an id, whatever the
    profile API does, the effect returns normally and leaves the page in its
    form view, not loading and without an error; the API is asked once when
    the session has a username and not at all otherwise, and its failure is
    only logged. *)
Theorem profile_load_never_fails (b : Backend) (c : Page) (u : SessionUser) :
  identified (session c) = Some u ->
  fst (fetchUserProfile b c) = Returns tt
  /\ isLoading (snd (fetchUserProfile b c)) = false
  /\ error (snd (fetchUserProfile b c)) = None
  /\ render (snd (fetchUserProfile b c)) = FormView no_errors (isUpdating c)
  /\ new_effects c (snd (fetchUserProfile b c))
     = if truthy (user_username u) then
         api_getProfile (orEmpty (user_username u))
         :: match getProfile b (orEmpty (user_username u)) with
            | Fulfilled _ => []
            | Rejects _ => [console_error "Error fetching user profile:"]
            end
       else [].
Proof.
  intros Hid. destruct (identified_some c u Hid) as (s & Hs & Hu & Htid).
  unfold fetchUserProfile, render. rewrite Hs, Hu, Htid. cbn [negb].
  unfold bind, stmt, try_catch_finally, try_catch, await, ret.
  destruct (truthy (user_image u)), (truthy (user_username u));
    try (destruct (getProfile b (orEmpty (user_username u))) as [d | e];
         [destruct (truthy (data_bannerImage d)) | ]);
    unfold new_effects;
    cbn [fst snd session isLoading error isUpdating form_errors effects
         setIsLoading setError form_reset setProfileImagePreview
         setBannerImagePreview emit truthy];
    rewrite ?Hs, <- ?app_assoc;
    repeat split;
    first [ apply skipn_all | apply skipn_length_app ].
Qed.

Lemma profile_load_never_fails_witness :
  render (mount ProfileScenario.member ProfileScenario.api_down)
  = FormView no_errors false
  /\ effects (mount ProfileScenario.member ProfileScenario.api_down)
     = [api_getProfile "ada_l"; console_error "Error fetching user profile:"].
Proof.
  destruct (profile_load_never_fails ProfileScenario.api_down
              (initial ProfileScenario.member)
              {| user_id := Some "u1"; user_name := Some "Ada";
                 user_username := Some "ada_l"; user_image := None |}
              eq_refl) as (_ & _ & _ & Hr & He).
  split; [exact Hr | exact He].
Defined.

Lemma truthy_some (x : string) : x <> "" -> truthy (Some x) = true.
Proof.
  intros Hx. cbn. apply negb_true_iff. apply String.eqb_neq. exact Hx.
Qed.

Lemma or_fallback (a : option string) (x : string) :
  x <> "" ->
  orEmpty (or (or a (Some x)) (Some ""))
  = match a with
    | Some y => if y =? "" then x else y
    | None => x
    end.
Proof.
  intros Hx. apply String.eqb_neq in Hx.
  unfold or, truthy, orEmpty.
  destruct a as [y | ]; [destruct (y =? "") eqn:Hy | ];
    cbn [negb]; rewrite ?Hx, ?Hy; cbn [negb]; rewrite ?Hx, ?Hy;
    reflexivity.
Qed.

(** Loading keeps the names.  When the session holds a non-empty name and
    username, the form comes out of loading with the name and the username
    of the profile API where those are non-empty strings, and with the ones
    of the session where the API gives an empty string or none, and when the
    call fails; so neither is ever empty. *)
Theorem profile_load_keeps_names
    (b : Backend) (c : Page) (s : PageSession) (u : SessionUser)
    (i n un : string) :
  session c = Some s -> session_user s = Some u ->
  user_id u = Some i -> i <> "" ->
  user_name u = Some n -> n <> "" ->
  user_username u = Some un -> un <> "" ->
  name (form_values (snd (fetchUserProfile b c)))
  = match getProfile b un with
    | Fulfilled d =>
        match data_name d with
        | Some x => if x =? "" then n else x
        | None => n
        end
    | Rejects _ => n
    end
  /\ username (form_values (snd (fetchUserProfile b c)))
     = match getProfile b un with
       | Fulfilled d =>
           match data_username d with
           | Some x => if x =? "" then un else x
           | None => un
           end
       | Rejects _ => un
       end
  /\ name (form_values (snd (fetchUserProfile b c))) <> ""
  /\ username (form_values (snd (fetchUserProfile b c))) <> "".
Proof.
  intros Hs Hu Hi Hine Hn Hnne Hun Hunne.
  assert (Hvalues :
    name (form_values (snd (fetchUserProfile b c)))
    = match getProfile b un with
      | Fulfilled d =>
          match data_name d with
          | Some x => if x =? "" then n else x
          | None => n
          end
      | Rejects _ => n
      end
    /\ username (form_values (snd (fetchUserProfile b c)))
       = match getProfile b un with
         | Fulfilled d =>
             match data_username d with
             | Some x => if x =? "" then un else x
             | None => un
             end
         | Rejects _ => un
         end).
  { unfold fetchUserProfile. rewrite Hs, Hu, Hi, (truthy_some i Hine).
    cbn [negb].
    unfold bind, stmt, try_catch_finally, try_catch, await, ret.
    rewrite Hun, (truthy_some un Hunne), Hn. cbn [orEmpty].
    destruct (truthy (user_image u));
      (destruct (getProfile b un) as [d | e];
       [destruct (truthy (data_bannerImage d)) | ]);
      cbn [snd form_values name username setIsLoading setError form_reset
           setProfileImagePreview setBannerImagePreview emit];
      split;
      first [ apply or_fallback; assumption
            | unfold or; rewrite truthy_some by assumption; reflexivity ]. }
  destruct Hvalues as [Hname Husername].
  split; [exact Hname | ]. split; [exact Husername | ].
  rewrite Hname, Husername.
  split.
  - destruct (getProfile b un) as [d | e]; [ | exact Hnne].
    destruct (data_name d) as [x | ]; [ | exact Hnne].
    destruct (x =? "") eqn:Hx; [exact Hnne | apply String.eqb_neq; exact Hx].
  - destruct (getProfile b un) as [d | e]; [ | exact Hunne].
    destruct (data_username d) as [x | ]; [ | exact Hunne].
    destruct (x =? "") eqn:Hx; [exact Hunne | apply String.eqb_neq; exact Hx].
Qed.

Lemma profile_load_keeps_names_witness :
  name (form_values (mount ProfileScenario.member ProfileScenario.api_up))
  = "Ada"
  /\ username (form_values
                 (mount ProfileScenario.member ProfileScenario.api_up))
     = "ada_l".
Proof.
  destruct (profile_load_keeps_names ProfileScenario.api_up
              (initial ProfileScenario.member)
              {| session_user :=
                   Some {| user_id := Some "u1"; user_name := Some "Ada";
                           user_username := Some "ada_l";
                           user_image := None |} |}
              {| user_id := Some "u1"; user_name := Some "Ada";
                 user_username := Some "ada_l"; user_image := None |}
              "u1" "Ada" "ada_l")
    as (Hname & Husername & _); try reflexivity; try discriminate.
  split; [exact Hname | exact Husername].
Defined.

(** A session without a user id.  The effect returns at once, so the page
    that was mounted loading stays loading: as long as the session does not
    change, nothing that happens gets it out of the spinner. *)
Theorem profile_without_id_keeps_loading
    (s : PageSession) (b : Backend) (inputs : list Input) :
  identified (Some s) = None ->
  forallb (fun i => negb (is_session_change i)) inputs = true ->
  run (mount (Some s) b) inputs = initial (Some s)
  /\ render (run (mount (Some s) b) inputs) = LoadingView.
Proof.
  intros Hid Hin.
  assert (Hmount : mount (Some s) b = initial (Some s)).
  { unfold mount. rewrite identified_none; [reflexivity | exact Hid]. }
  assert (Hrun : run (initial (Some s)) inputs = initial (Some s)).
  { induction inputs as [| i inputs IH]; [reflexivity | ].
    cbn [forallb] in Hin. apply andb_prop in Hin as [Hi Hrest].
    cbn [run fold_left].
    assert (Hstep : step (initial (Some s)) i = initial (Some s)).
    { destruct i as [s' b' | v | value | value | | b']; cbn in Hi;
        try discriminate Hi; reflexivity. }
    rewrite Hstep. apply IH. exact Hrest. }
  rewrite Hmount, Hrun. split; reflexivity.
Qed.

Lemma profile_without_id_keeps_loading_witness :
  render (run (mount ProfileScenario.nameless ProfileScenario.api_up)
            [Types ProfileScenario.typed; Saves ProfileScenario.api_up;
             ReaderLoads])
  = LoadingView.
Proof.
  apply (profile_without_id_keeps_loading
           {| session_user :=
                Some {| user_id := None; user_name := Some "Ada";
                        user_username := Some "ada_l";
                        user_image := None |} |}
           ProfileScenario.api_up
           [Types ProfileScenario.typed; Saves ProfileScenario.api_up;
            ReaderLoads]); reflexivity.
Defined.

(** ** What the page keeps *)

Lemma fetchUserProfile_keeps (b : Backend) (c : Page) :
  profileImage (snd (fetchUserProfile b c)) = profileImage c
  /\ bannerImage (snd (fetchUserProfile b c)) = bannerImage c
  /\ (error c = None -> error (snd (fetchUserProfile b c)) = None).
Proof.
  destruct (identified (session c)) as [u | ] eqn:Hid.
  - destruct (profile_load_never_fails b c u Hid) as (_ & _ & He & _).
    split; [ | split; [ | intros _; exact He]];
      destruct (identified_some c u Hid) as (s & Hs & Hu & Htid);
      unfold fetchUserProfile; rewrite Hs, Hu, Htid; cbn [negb];
      unfold bind, stmt, try_catch_finally, try_catch, await, ret;
      destruct (truthy (user_image u)), (truthy (user_username u));
      try (destruct (getProfile b (orEmpty (user_username u))) as [d | e];
           [destruct (truthy (data_bannerImage d)) | ]);
      reflexivity.
  - rewrite (identified_none b c Hid). repeat split. intros H; exact H.
Qed.

Lemma clickSave_keeps (b : Backend) (c : Page) :
  profileImage (clickSave b c) = profileImage c
  /\ bannerImage (clickSave b c) = bannerImage c
  /\ error (clickSave b c) = error c.
Proof.
  unfold clickSave, render.
  destruct (session c) as [s | ] eqn:Hs; [ | repeat split].
  destruct (isLoading c); [repeat split | ].
  destruct (truthy (error c)); [repeat split | ].
  destruct (isUpdating c); [repeat split | ].
  unfold handleSubmit.
  destruct (valid (profileSchema (form_values c))); [ | repeat split].
  destruct (onSubmit_signed_in b (form_values c)
              (setIsSubmitted true (setFormErrors no_errors c)) s)
    as (l & -> & _); [exact Hs | ].
  repeat split.
Qed.

Lemma step_keeps (c : Page) (i : Input) :
  (profileImage c <> None -> profileImage (step c i) <> None)
  /\ (error c = None -> error (step c i) = None).
Proof.
  destruct i as [s b | v | value | value | | b]; cbn [step].
  - destruct (fetchUserProfile_keeps b (setSession s c)) as (Hp & _ & He).
    rewrite Hp. split; [intros H; exact H | exact He].
  - destruct (in_form c); split; intros H; exact H.
  - destruct (in_form c); [ | split; intros H; exact H].
    destruct value; cbn; split; intros H; first [exact H | discriminate].
  - destruct (in_form c); [ | split; intros H; exact H].
    destruct value; cbn; split; intros H; exact H.
  - unfold reader_onload. destruct (reading c); split; intros H; exact H.
  - destruct (clickSave_keeps b c) as (Hp & _ & He).
    rewrite Hp, He. split; intros H; exact H.
Qed.

Lemma run_keeps (inputs : list Input) (c : Page) :
  (profileImage c <> None -> profileImage (run c inputs) <> None)
  /\ (error c = None -> error (run c inputs) = None).
Proof.
  revert c. induction inputs as [| i inputs IH]; intros c.
  - split; intros H; exact H.
  - cbn [run fold_left]. destruct (step_keeps c i) as [Hp He].
    destruct (IH (step c i)) as [Hp' He'].
    split; intros H; [apply Hp', Hp, H | apply He', He, H].
Qed.

(** The error view is never shown.  The only statement that sets [error] is
    in the outer [catch] of the loading effect, and nothing in its [try]
    block throws past the inner [catch]: whatever the session and the
    collaborators do, [error] stays [null]. *)
Theorem profile_error_view_unreachable
    (s : option PageSession) (b : Backend) (inputs : list Input) :
  error (run (mount s b) inputs) = None
  /\ forall message, render (run (mount s b) inputs) <> ErrorView message.
Proof.
  assert (He : error (run (mount s b) inputs) = None).
  { apply run_keeps. unfold mount.
    apply (fetchUserProfile_keeps b (initial s)). reflexivity. }
  split; [exact He | ].
  intros message. unfold render. rewrite He.
  destruct (session _); [ | discriminate].
  destruct (isLoading _); discriminate.
Qed.

Lemma onSubmit_uploads_first (b : Backend) (data : ProfileFormValues)
    (c : Page) (s : PageSession) (f : File) :
  session c = Some s -> profileImage c = Some f ->
  hd_error (new_effects c (snd (onSubmit b data c)))
  = Some (startProfileUpload_call [f]).
Proof.
  intros Hs Hf. unfold onSubmit. rewrite Hs, Hf.
  unfold bind, stmt, try_catch_finally, try_catch, await, ret.
  destruct (startProfileUpload b [f]) as [r1 | e1];
    [ destruct (bannerImage c) as [bf | ] eqn:Hbf;
      [destruct (startBannerUpload b [bf]) as [r2 | e2] | ];
      cbn [profileImage bannerImage profileImagePreview bannerImagePreview
           setIsUpdating emit];
      rewrite ?Hbf;
      try match goal with
        | |- context [updateProfile b ?d] =>
            destruct (updateProfile b d) as [u | e3]
        end;
      try (destruct (update b) as [[[] | e4] | ])
    | ];
    unfold new_effects; cbn [snd effects setIsUpdating emit];
    rewrite <- ?app_assoc, skipn_length_app; reflexivity.
Qed.

(** A picked file is never let go.  Nothing clears [profileImage]: once a
    file was picked there is a file from then on, whatever happens, and every
    submission of a signed-in user starts by uploading it, also after a
    submission that succeeded. *)
Theorem profile_picked_file_stays
    (c : Page) (f : File) (inputs : list Input) :
  profileImage c = Some f ->
  exists f',
    profileImage (run c inputs) = Some f'
    /\ forall b data s,
         session (run c inputs) = Some s ->
         hd_error (new_effects (run c inputs)
                     (snd (onSubmit b data (run c inputs))))
         = Some (startProfileUpload_call [f']).
Proof.
  intros Hf.
  destruct (profileImage (run c inputs)) as [f' | ] eqn:Hrun.
  - exists f'. split; [reflexivity | ].
    intros b data s Hs. apply (onSubmit_uploads_first b data _ s f' Hs Hrun).
  - exfalso. apply (proj1 (run_keeps inputs c)); [ | exact Hrun].
    rewrite Hf. discriminate.
Qed.

Lemma profile_picked_file_stays_witness :
  profileImage
    (run (handleProfileImageChange (picked_file ProfileScenario.photo)
            (mount ProfileScenario.member ProfileScenario.api_up))
       [Saves ProfileScenario.api_up; PicksProfileImage picked_nothing;
        PicksProfileImage (picked_string "https://cdn.example/new.png")])
  = Some ProfileScenario.photo.
Proof.
  destruct (profile_picked_file_stays
              (handleProfileImageChange (picked_file ProfileScenario.photo)
                 (mount ProfileScenario.member ProfileScenario.api_up))
              ProfileScenario.photo
              [Saves ProfileScenario.api_up; PicksProfileImage picked_nothing;
               PicksProfileImage (picked_string "https://cdn.example/new.png")]
              eq_refl) as (f' & Hf' & _).
  reflexivity.
Defined.

End ProfilePageBehaviour.
